(** * autosend-go: a shallow embedding of the request / response /
      error-translation pipeline

    The Go package [autosend] (client.go, email.go, types.go, the option
    constructors and the [APIError] methods) is translated definition by
    definition.  Go strings and byte slices are [string] (a list of bytes),
    [int], [int64] and [time.Duration] are [Z] on a 64-bit platform,
    [http.Header] is a finite map from canonical keys to value lists, and
    the [*http.Client] values that a client shares with its caller live in
    an explicit store so that in-place mutation is visible. *)

From Stdlib Require Import ZArith String Ascii List Bool Lia DecimalString
  DecimalPos.
From stdpp Require Import base option strings list gmap.

Set Warnings "-register-all,-clear-no-such-hyp".

Local Open Scope string_scope.
Local Open Scope Z_scope.

(** ** Bytes and decimal rendering *)

Module GoBytes.

Definition byte_val (c : ascii) : Z := Z.of_nat (nat_of_ascii c).

Definition byte_of (z : Z) : ascii := ascii_of_nat (Z.to_nat (z mod 256)).

Definition in_range (lo hi : Z) (c : ascii) : bool :=
  (lo <=? byte_val c) && (byte_val c <=? hi).

Definition is_digit (c : ascii) : bool := in_range 48 57 c.
Definition is_lower (c : ascii) : bool := in_range 97 122 c.
Definition is_upper (c : ascii) : bool := in_range 65 90 c.

Definition is_empty (s : string) : bool :=
  match s with EmptyString => true | String _ _ => false end.

(** [%d] of [fmt.Sprintf] on an integer. *)
Definition itoa (z : Z) : string := NilZero.string_of_int (Z.to_int z).

End GoBytes.
Import GoBytes.

(** ** strconv: [ParseUint], [ParseInt] and [Atoi] of the Go standard
       library, for base 2..36 and a 64-bit [int] *)

Module strconv.

Inductive NumErr := ErrSyntax | ErrRange.

Definition IntSize : Z := 64.
Definition maxUint64 : Z := 2 ^ 64 - 1.

Definition lower (c : ascii) : ascii := byte_of (Z.lor (byte_val c) 32).

(** The digit value of one byte, as the [switch] of [ParseUint] reads it. *)
Definition digit_of (c : ascii) : option Z :=
  if is_digit c then Some (byte_val c - 48)
  else if is_lower (lower c) then Some (byte_val (lower c) - 97 + 10)
  else None.

(** The loop of [ParseUint]: [n] is the accumulator. *)
Fixpoint ParseUint_loop (base cutoff maxVal : Z) (s : string) (n : Z)
  : Z * option NumErr :=
  match s with
  | EmptyString => (n, None)
  | String c rest =>
      match digit_of c with
      | None => (0, Some ErrSyntax)
      | Some d =>
          if base <=? d then (0, Some ErrSyntax)
          else if cutoff <=? n then (maxVal, Some ErrRange)
          else
            let n' := n * base in
            let n1 := (n' + d) mod 2 ^ 64 in
            if (n1 <? n') || (maxVal <? n1) then (maxVal, Some ErrRange)
            else ParseUint_loop base cutoff maxVal rest n1
      end
  end.

Definition ParseUint (s : string) (base bitSize : Z) : Z * option NumErr :=
  if is_empty s then (0, Some ErrSyntax)
  else
    let bitSize := if bitSize =? 0 then IntSize else bitSize in
    let cutoff := maxUint64 / base + 1 in
    let maxVal := 2 ^ bitSize - 1 in
    ParseUint_loop base cutoff maxVal s 0.

Definition ParseInt (s : string) (base bitSize : Z) : Z * option NumErr :=
  match s with
  | EmptyString => (0, Some ErrSyntax)
  | String c0 rest =>
      let neg := Ascii.eqb c0 "-" in
      let s' := if Ascii.eqb c0 "+" || neg then rest else s in
      match ParseUint s' base bitSize with
      | (_, Some ErrSyntax) => (0, Some ErrSyntax)
      | (un, _) =>
          let bitSize := if bitSize =? 0 then IntSize else bitSize in
          let cutoff := 2 ^ (bitSize - 1) in
          if negb neg && (cutoff <=? un) then (cutoff - 1, Some ErrRange)
          else if neg && (cutoff <? un) then (- cutoff, Some ErrRange)
          else ((if neg then - un else un), None)
      end
  end.

(** The fast path of [Atoi]: at most 18 bytes, so no overflow. *)
Fixpoint Atoi_fast (s : string) (n : Z) : option Z :=
  match s with
  | EmptyString => Some n
  | String ch rest =>
      let d := (byte_val ch - 48) mod 256 in
      if 9 <? d then None else Atoi_fast rest (n * 10 + d)
  end.

Definition Atoi (s : string) : Z * option NumErr :=
  let sLen := Z.of_nat (String.length s) in
  if (0 <? sLen) && (sLen <? 19) then
    match s with
    | EmptyString => (0, Some ErrSyntax)
    | String c0 rest =>
        let signed := Ascii.eqb c0 "-" || Ascii.eqb c0 "+" in
        let s' := if signed then rest else s in
        if signed && is_empty s' then (0, Some ErrSyntax)
        else
          match Atoi_fast s' 0 with
          | None => (0, Some ErrSyntax)
          | Some n => ((if Ascii.eqb c0 "-" then - n else n), None)
          end
    end
  else ParseInt s 10 0.

End strconv.



(** ** encoding/json: the JSON grammar the scanner accepts, and string
       unquoting *)

Module json.

Inductive value :=
| JNull
| JBool (b : bool)
| JNumber (lit : string)
| JString (raw : string)      (* the bytes between the quotes, escapes kept *)
| JArray (elems : list value)
| JObject (members : list (string * value)).

Inductive token :=
| TLBrace | TRBrace | TLBrack | TRBrack | TColon | TComma
| TStr (raw : string) | TNum (lit : string) | TTrue | TFalse | TNull.

Definition maxNestingDepth : Z := 10000.

Definition is_space (c : ascii) : bool :=
  existsb (Z.eqb (byte_val c)) [32; 9; 13; 10].

Definition is_hex (c : ascii) : bool :=
  is_digit c || in_range 97 102 c || in_range 65 70 c.

Definition hex_val (c : ascii) : Z :=
  if is_digit c then byte_val c - 48
  else if in_range 97 102 c then byte_val c - 97 + 10
  else byte_val c - 65 + 10.

Definition dquote : ascii := "034"%char.

Definition is_simple_escape (c : ascii) : bool :=
  existsb (Ascii.eqb c) [dquote; "\"; "/"; "b"; "f"; "n"; "r"; "t"]%char.

(** The scanner inside a string literal, after the opening quote: the raw
    literal and what follows the closing quote. *)
Fixpoint scan_string (s : string) : option (string * string) :=
  match s with
  | EmptyString => None
  | String c rest =>
      if Ascii.eqb c dquote then Some (EmptyString, rest)
      else if Ascii.eqb c "\" then
        match rest with
        | String e rest1 =>
            if is_simple_escape e then
              match scan_string rest1 with
              | Some (raw, r) => Some (String c (String e raw), r)
              | None => None
              end
            else if Ascii.eqb e "u" then
              match rest1 with
              | String h1 (String h2 (String h3 (String h4 rest2))) =>
                  if is_hex h1 && is_hex h2 && is_hex h3 && is_hex h4 then
                    match scan_string rest2 with
                    | Some (raw, r) =>
                        Some (String c (String e (String h1 (String h2
                               (String h3 (String h4 raw))))), r)
                    | None => None
                    end
                  else None
              | _ => None
              end
            else None
        | EmptyString => None
        end
      else if byte_val c <? 32 then None
      else
        match scan_string rest with
        | Some (raw, r) => Some (String c raw, r)
        | None => None
        end
  end.

Fixpoint span_digits (s : string) : string * string :=
  match s with
  | String c rest =>
      if is_digit c then
        let (ds, r) := span_digits rest in (String c ds, r)
      else (EmptyString, s)
  | EmptyString => (EmptyString, EmptyString)
  end.

(** The number states of the scanner: an optional minus, then 0 or a
    non-zero digit followed by digits, then an optional fraction (a dot and
    at least one digit), then an optional exponent (e or E, an optional
    sign, at least one digit). *)
Definition scan_number (s : string) : option (string * string) :=
  let (sign, s1) :=
    match s with
    | String "-" r => ("-", r)
    | _ => (EmptyString, s)
    end in
  let int_part :=
    match s1 with
    | String "0" r => Some ("0", r)
    | String c _ =>
        if is_digit c then Some (span_digits s1) else None
    | EmptyString => None
    end in
  match int_part with
  | None => None
  | Some (ip, s2) =>
      let frac_part :=
        match s2 with
        | String "." r =>
            match span_digits r with
            | (EmptyString, _) => None
            | (ds, r') => Some (String "." ds, r')
            end
        | _ => Some (EmptyString, s2)
        end in
      match frac_part with
      | None => None
      | Some (fp, s3) =>
          let exp_part :=
            match s3 with
            | String e r =>
                if Ascii.eqb e "e" || Ascii.eqb e "E" then
                  let (sg, r1) :=
                    match r with
                    | String "+" r' => ("+", r')
                    | String "-" r' => ("-", r')
                    | _ => (EmptyString, r)
                    end in
                  match span_digits r1 with
                  | (EmptyString, _) => None
                  | (ds, r') => Some (String e (sg +:+ ds), r')
                  end
                else Some (EmptyString, s3)
            | EmptyString => Some (EmptyString, s3)
            end in
          match exp_part with
          | None => None
          | Some (ep, s4) => Some (sign +:+ ip +:+ fp +:+ ep, s4)
          end
      end
  end.

Fixpoint lex (fuel : nat) (s : string) : option (list token) :=
  match fuel with
  | O => None
  | S fuel =>
      let single (t : token) (rest : string) :=
        match lex fuel rest with
        | Some ts => Some (t :: ts)
        | None => None
        end in
      match s with
      | EmptyString => Some []
      | String "{" rest => single TLBrace rest
      | String "}" rest => single TRBrace rest
      | String "[" rest => single TLBrack rest
      | String "]" rest => single TRBrack rest
      | String ":" rest => single TColon rest
      | String "," rest => single TComma rest
      | String "t" (String "r" (String "u" (String "e" rest))) =>
          single TTrue rest
      | String "f" (String "a" (String "l" (String "s" (String "e" rest)))) =>
          single TFalse rest
      | String "n" (String "u" (String "l" (String "l" rest))) =>
          single TNull rest
      | String c rest =>
          if is_space c then lex fuel rest
          else if Ascii.eqb c dquote then
            match scan_string rest with
            | Some (raw, rest') => single (TStr raw) rest'
            | None => None
            end
          else if Ascii.eqb c "-" || is_digit c then
            match scan_number s with
            | Some (lit, rest') => single (TNum lit) rest'
            | None => None
            end
          else None
      end
  end.

(** One value, then the remaining tokens.  [depth] counts the open arrays
    and objects, which the scanner bounds by [maxNestingDepth]. *)
Fixpoint parse_value (fuel : nat) (depth : Z) (ts : list token)
  : option (value * list token) :=
  match fuel with
  | O => None
  | S fuel =>
      match ts with
      | TNull :: r => Some (JNull, r)
      | TTrue :: r => Some (JBool true, r)
      | TFalse :: r => Some (JBool false, r)
      | TNum lit :: r => Some (JNumber lit, r)
      | TStr raw :: r => Some (JString raw, r)
      | TLBrack :: r =>
          if maxNestingDepth <? depth + 1 then None
          else
            match r with
            | TRBrack :: r' => Some (JArray [], r')
            | _ =>
                match parse_elems fuel (depth + 1) r with
                | Some (vs, r') => Some (JArray vs, r')
                | None => None
                end
            end
      | TLBrace :: r =>
          if maxNestingDepth <? depth + 1 then None
          else
            match r with
            | TRBrace :: r' => Some (JObject [], r')
            | _ =>
                match parse_members fuel (depth + 1) r with
                | Some (ms, r') => Some (JObject ms, r')
                | None => None
                end
            end
      | _ => None
      end
  end
with parse_elems (fuel : nat) (depth : Z) (ts : list token)
  : option (list value * list token) :=
  match fuel with
  | O => None
  | S fuel =>
      match parse_value fuel depth ts with
      | Some (v, TComma :: r) =>
          match parse_elems fuel depth r with
          | Some (vs, r') => Some (v :: vs, r')
          | None => None
          end
      | Some (v, TRBrack :: r) => Some ([v], r)
      | _ => None
      end
  end
with parse_members (fuel : nat) (depth : Z) (ts : list token)
  : option (list (string * value) * list token) :=
  match fuel with
  | O => None
  | S fuel =>
      match ts with
      | TStr k :: TColon :: r =>
          match parse_value fuel depth r with
          | Some (v, TComma :: r') =>
              match parse_members fuel depth r' with
              | Some (ms, r'') => Some ((k, v) :: ms, r'')
              | None => None
              end
          | Some (v, TRBrace :: r') => Some ([(k, v)], r')
          | _ => None
          end
      | _ => None
      end
  end.

(** [checkValid] followed by reading the one top-level value. *)
Definition parse (data : string) : option value :=
  match lex (S (String.length data)) data with
  | Some ts =>
      match parse_value (2 * List.length ts + 2) 0 ts with
      | Some (v, []) => Some v
      | _ => None
      end
  | None => None
  end.

(** *** Unquoting a scanned string literal *)

Definition RuneError : string :=
  String (byte_of 239) (String (byte_of 191) (String (byte_of 189) EmptyString)).

(** [utf8.AppendRune] for a rune that is not a surrogate. *)
Definition encode_rune (r : Z) : string :=
  if r <? 128 then String (byte_of r) EmptyString
  else if r <? 2048 then
    String (byte_of (192 + r / 64)) (String (byte_of (128 + r mod 64)) EmptyString)
  else if r <? 65536 then
    String (byte_of (224 + r / 4096))
      (String (byte_of (128 + (r / 64) mod 64))
         (String (byte_of (128 + r mod 64)) EmptyString))
  else
    String (byte_of (240 + r / 262144))
      (String (byte_of (128 + (r / 4096) mod 64))
         (String (byte_of (128 + (r / 64) mod 64))
            (String (byte_of (128 + r mod 64)) EmptyString))).

Definition is_cont (c : ascii) : bool := in_range 128 191 c.

(** How many continuation bytes follow the first byte of [s] when [s]
    starts with a well-formed multi-byte UTF-8 sequence; [0] otherwise. *)
Definition utf8_tail (s : string) : nat :=
  match s with
  | String c0 (String c1 r1) =>
      if in_range 194 223 c0 && is_cont c1 then 1%nat
      else
        match r1 with
        | String c2 r2 =>
            if ((Z.eqb (byte_val c0) 224 && in_range 160 191 c1)
                || (in_range 225 236 c0 && is_cont c1)
                || (Z.eqb (byte_val c0) 237 && in_range 128 159 c1)
                || (in_range 238 239 c0 && is_cont c1)) && is_cont c2
            then 2%nat
            else
              match r2 with
              | String c3 _ =>
                  if ((Z.eqb (byte_val c0) 240 && in_range 144 191 c1)
                      || (in_range 241 243 c0 && is_cont c1)
                      || (Z.eqb (byte_val c0) 244 && in_range 128 143 c1))
                     && is_cont c2 && is_cont c3
                  then 3%nat else 0%nat
              | EmptyString => 0%nat
              end
        | EmptyString => 0%nat
        end
  | _ => 0%nat
  end.

Definition hex4 (h1 h2 h3 h4 : ascii) : Z :=
  ((hex_val h1 * 16 + hex_val h2) * 16 + hex_val h3) * 16 + hex_val h4.

Definition unescape (e : ascii) : ascii :=
  if Ascii.eqb e "b" then byte_of 8
  else if Ascii.eqb e "f" then byte_of 12
  else if Ascii.eqb e "n" then byte_of 10
  else if Ascii.eqb e "r" then byte_of 13
  else if Ascii.eqb e "t" then byte_of 9
  else e.

(** The low half of a surrogate pair spelled out at the head of [s], and
    what follows it. *)
Definition low_surrogate (s : string) : option (Z * string) :=
  match s with
  | String b (String u (String g1 (String g2 (String g3 (String g4 r))))) =>
      if Ascii.eqb b "\" && Ascii.eqb u "u"
         && is_hex g1 && is_hex g2 && is_hex g3 && is_hex g4
         && (56320 <=? hex4 g1 g2 g3 g4) && (hex4 g1 g2 g3 g4 <? 57344)
      then Some (hex4 g1 g2 g3 g4, r) else None
  | _ => None
  end.

(** [unquote]: escapes are replaced, a [\u] surrogate without its partner
    and every ill-formed UTF-8 byte become U+FFFD.  [copy] counts the
    continuation bytes of a well-formed sequence still to be copied. *)
Fixpoint unquote_from (copy : nat) (s : string) : string :=
  match s with
  | EmptyString => EmptyString
  | String c rest =>
      match copy with
      | S copy' => String c (unquote_from copy' rest)
      | O =>
          if Ascii.eqb c "\" then
            match rest with
            | EmptyString => EmptyString
            | String e rest1 =>
                if Ascii.eqb e "u" then
                  match rest1 with
                  | String h1 (String h2 (String h3 (String h4 rest2))) =>
                      let rr := hex4 h1 h2 h3 h4 in
                      if (55296 <=? rr) && (rr <? 57344) then
                        match rest2 with
                        | String _ (String _ (String g1 (String g2
                            (String g3 (String g4 rest3))))) =>
                            match low_surrogate rest2 with
                            | Some (rr1, _) =>
                                if rr <? 56320 then
                                  encode_rune
                                    ((rr - 55296) * 1024 + (rr1 - 56320) + 65536)
                                  +:+ unquote_from O rest3
                                else RuneError +:+ unquote_from O rest2
                            | None => RuneError +:+ unquote_from O rest2
                            end
                        | _ => RuneError +:+ unquote_from O rest2
                        end
                      else encode_rune rr +:+ unquote_from O rest2
                  | _ => EmptyString
                  end
                else String (unescape e) (unquote_from O rest1)
            end
          else if byte_val c <? 128 then String c (unquote_from O rest)
          else
            match utf8_tail s with
            | O => RuneError +:+ unquote_from O rest
            | n => String c (unquote_from n rest)
            end
      end
  end.

Definition unquote (raw : string) : string := unquote_from O raw.

(** *** Matching an object key against the field names of a struct *)

(** Case folding of a key.  Only its comparison with a folded ASCII field
    name is used, so beside ASCII letters only the two runes that fold to
    an ASCII letter matter: U+017F (to S) and U+212A (to K). *)
Fixpoint foldName (s : string) : string :=
  match s with
  | EmptyString => EmptyString
  | String c rest =>
      let plain := String (if is_lower c then byte_of (byte_val c - 32) else c)
                          (foldName rest) in
      match rest with
      | String c1 rest1 =>
          if Z.eqb (byte_val c) 197 && Z.eqb (byte_val c1) 191
          then String "S" (foldName rest1)
          else
            match rest1 with
            | String c2 rest2 =>
                if Z.eqb (byte_val c) 226 && Z.eqb (byte_val c1) 132
                   && Z.eqb (byte_val c2) 170
                then String "K" (foldName rest2)
                else plain
            | EmptyString => plain
            end
      | EmptyString => plain
      end
  end.

Fixpoint index_where {A} (p : A -> bool) (l : list A) : option nat :=
  match l with
  | [] => None
  | x :: l' => if p x then Some O else S <$> index_where p l'
  end.

(** The field a key selects: an exact match first, a match up to case
    otherwise. *)
Definition find_field (names : list string) (key : string) : option nat :=
  match index_where (String.eqb key) names with
  | Some i => Some i
  | None => index_where (fun n => String.eqb (foldName key) (foldName n)) names
  end.

End json.

(** ** time: [Duration], and [Time] as the fields an RFC 3339 text
       denotes *)

Module time.

Abbreviation Duration := Z.

Definition Second : Duration := 1000000000.

Record Time := mkTime {
  Year : Z; Month : Z; Day : Z;
  Hour : Z; Minute : Z; Sec : Z; Nanosecond : Z;
  ZoneOffset : Z   (* seconds east of UTC *)
}.

(** [Time{}]: January 1 of year 1, 00:00:00 UTC. *)
Definition zero : Time := mkTime 1 1 1 0 0 0 0 0.

Definition isLeap (year : Z) : bool :=
  (year mod 4 =? 0) && (negb (year mod 100 =? 0) || (year mod 400 =? 0)).

Definition daysIn (m year : Z) : Z :=
  if m =? 2 then (if isLeap year then 29 else 28)
  else if existsb (Z.eqb m) [4; 6; 9; 11] then 30 else 31.

Fixpoint digits_val (s : string) (x : Z) : option Z :=
  match s with
  | EmptyString => Some x
  | String c rest =>
      if is_digit c then digits_val rest (x * 10 + (byte_val c - 48)) else None
  end.

(** The local [parseUint] of [parseRFC3339]: digits only, within range. *)
Definition parseUint (s : string) (min max : Z) : option Z :=
  match digits_val s 0 with
  | Some x => if (x <? min) || (max <? x) then None else Some x
  | None => None
  end.

Definition sub (s : string) (i j : nat) : string := String.substring i (j - i) s.

Definition byte_at (s : string) (i : nat) (c : ascii) : bool :=
  match String.get i s with
  | Some c' => Ascii.eqb c' c
  | None => false
  end.

(** [parseNanoseconds]: the first nine digits after the dot, scaled. *)
Definition parseNanoseconds (frac : string) : Z :=
  let ds := String.substring 0 9 frac in
  match digits_val ds 0 with
  | Some v => v * 10 ^ (9 - Z.of_nat (String.length ds))
  | None => 0
  end.

(** [parseRFC3339]: the strict grammar
    YYYY-MM-DDTHH:MM:SS[.fraction](Z|+HH:MM|-HH:MM). *)
Definition parseRFC3339 (s : string) : option Time :=
  if (String.length s <? 19)%nat then None
  else
    match parseUint (sub s 0 4) 0 9999, parseUint (sub s 5 7) 1 12 with
    | Some year, Some month =>
        match parseUint (sub s 8 10) 1 (daysIn month year),
              parseUint (sub s 11 13) 0 23,
              parseUint (sub s 14 16) 0 59,
              parseUint (sub s 17 19) 0 59 with
        | Some day, Some hour, Some min, Some sec =>
            if byte_at s 4 "-" && byte_at s 7 "-" && byte_at s 10 "T"
               && byte_at s 13 ":" && byte_at s 16 ":" then
              let s1 := String.substring 19 (String.length s - 19) s in
              let (nsec, s2) :=
                match s1 with
                | String "." (String d r) =>
                    if is_digit d then
                      let (ds, r') := json.span_digits (String d r) in
                      (parseNanoseconds ds, r')
                    else (0, s1)
                | _ => (0, s1)
                end in
              if String.eqb s2 "Z" then
                Some (mkTime year month day hour min sec nsec 0)
              else if negb (String.length s2 =? 6)%nat then None
              else
                match parseUint (sub s2 1 3) 0 23, parseUint (sub s2 4 6) 0 59 with
                | Some hr, Some mm =>
                    if (byte_at s2 0 "-" || byte_at s2 0 "+") && byte_at s2 3 ":"
                    then
                      let off := (hr * 60 + mm) * 60 in
                      Some (mkTime year month day hour min sec nsec
                              (if byte_at s2 0 "-" then - off else off))
                    else None
                | _, _ => None
                end
            else None
        | _, _, _, _ => None
        end
    | _, _ => None
    end.

End time.

(** ** types.go *)

Module EmailAddress.
Record t := mk { Email : string; Name : string }.
Definition zero : t := mk "" "".
End EmailAddress.

Module SendEmailRequest.
Record t := mk {
  To : EmailAddress.t;
  From : EmailAddress.t;
  Subject : string;
  HTML : string;
  Text : string;
  TemplateID : string;
  ReplyTo : option EmailAddress.t;
  UnsubscribeGroupID : string;
  Categories : list string;
  DynamicData : gmap string json.value;
  ScheduledAt : string;
  CampaignName : string;
  Test : bool
}.
End SendEmailRequest.

Module ResponseData.
Record t := mk { EmailID : string; Status : string; QueuedAt : time.Time }.
Definition zero : t := mk "" "" time.zero.
End ResponseData.

Module SendEmailResponse.
Record t := mk { Success : bool; Message : string; Data : ResponseData.t }.
Definition zero : t := mk false "" ResponseData.zero.
End SendEmailResponse.

Module FieldError.
Record t := mk { Field : string; Message : string }.
Definition zero : t := mk "" "".
End FieldError.

Module ErrorResponse.
Record t := mk {
  Success : bool;
  Message : string;
  Errors : list FieldError.t;
  RetryAfter : Z
}.
Definition zero : t := mk false "" [] 0.
End ErrorResponse.

Module RateLimitInfo.
Record t := mk { Limit : Z; Remaining : Z; Reset : Z }.
Definition zero : t := mk 0 0 0.
End RateLimitInfo.

(** ** The [APIError] type and its methods *)

Module APIError.

Record t := mk {
  StatusCode : Z;
  Message : string;
  Errors : list FieldError.t;
  RetryAfter : Z;
  RateLimitInfo : option RateLimitInfo.t
}.

Definition Error (e : t) : string :=
  if (0 <? Z.of_nat (List.length (Errors e))) then
    let fields :=
      map (fun err => FieldError.Field err +:+ ": " +:+ FieldError.Message err)
          (Errors e) in
    "autosend API error (status " +:+ itoa (StatusCode e) +:+ "): "
      +:+ Message e +:+ " - " +:+ String.concat ", " fields
  else if 0 <? RetryAfter e then
    "autosend API error (status " +:+ itoa (StatusCode e) +:+ "): "
      +:+ Message e +:+ " (retry after " +:+ itoa (RetryAfter e) +:+ " seconds)"
  else
    "autosend API error (status " +:+ itoa (StatusCode e) +:+ "): " +:+ Message e.

Definition IsRateLimitError (e : t) : bool := StatusCode e =? 429.

Definition IsValidationError (e : t) : bool := StatusCode e =? 400.

Definition IsAuthenticationError (e : t) : bool := StatusCode e =? 401.

Definition IsForbiddenError (e : t) : bool := StatusCode e =? 403.

Definition IsServerError (e : t) : bool :=
  (500 <=? StatusCode e) && (StatusCode e <? 600).

Definition GetRetryAfter (e : t) : Z :=
  if IsRateLimitError e then RetryAfter e else 0.

End APIError.

(** ** Go error values

    [errorString] is what [fmt.Errorf] builds without [%w], [wrapError]
    what it builds with one [%w]; [APIErr] is a [*APIError]; [libError] is
    an error value handed over by the standard library or by a transport,
    of which only the package and the text are kept; [urlError] is the
    [*url.Error] in which [http.Client.Do] hands back every failure, with
    its text and the error it wraps. *)

Inductive error :=
| errorString (s : string)
| wrapError (msg : string) (err : error)
| APIErr (e : APIError.t)
| libError (pkg : string) (msg : string)
| urlError (msg : string) (err : error).

Definition Error (e : error) : string :=
  match e with
  | errorString s => s
  | wrapError msg _ => msg
  | APIErr a => APIError.Error a
  | libError _ msg => msg
  | urlError msg _ => msg
  end.

(** [fmt.Errorf(prefix + "%w", err)]. *)
Definition Errorf_w (prefix : string) (err : error) : error :=
  wrapError (prefix +:+ Error err) err.

(** [errors.As(err, &apiErr)] with [apiErr] a [*APIError]. *)
Fixpoint As_APIError (e : error) : option APIError.t :=
  match e with
  | APIErr a => Some a
  | wrapError _ e' => As_APIError e'
  | urlError _ e' => As_APIError e'
  | _ => None
  end.

(** ** Decoding a JSON value into the structs of types.go

    [json.Unmarshal(data, &v)] on a zero [v]: the text must be one valid
    JSON value; an object fills the fields its keys select, in order, a
    later duplicate overwriting an earlier one; [null] leaves the target as
    it is; a value of the wrong kind is an error.  Only whether an error
    occurred matters to the callers, so decoding stops at the first one.
    An array met under a repeated key is decoded over fresh elements, as
    the package documentation describes it. *)

Module decode.
Import json.

Definition bool_ (v : value) (old : bool) : option bool :=
  match v with
  | JBool b => Some b
  | JNull => Some old
  | _ => None
  end.

Definition string_ (v : value) (old : string) : option string :=
  match v with
  | JString raw => Some (unquote raw)
  | JNull => Some old
  | _ => None
  end.

Definition int_ (v : value) (old : Z) : option Z :=
  match v with
  | JNumber lit =>
      match strconv.ParseInt lit 10 64 with
      | (n, None) => Some n
      | _ => None
      end
  | JNull => Some old
  | _ => None
  end.

(** [Time.UnmarshalJSON] on the raw literal: the strict RFC 3339 reading
    that it has performed since Go 1.20. *)
Definition Time_ (v : value) (old : time.Time) : option time.Time :=
  match v with
  | JString raw => time.parseRFC3339 raw
  | JNull => Some old
  | _ => None
  end.

Fixpoint members {T} (names : list string) (store : nat -> value -> T -> option T)
    (ms : list (string * value)) (acc : T) : option T :=
  match ms with
  | [] => Some acc
  | (k, v) :: ms' =>
      match find_field names (unquote k) with
      | None => members names store ms' acc
      | Some i =>
          match store i v acc with
          | Some acc' => members names store ms' acc'
          | None => None
          end
      end
  end.

Definition struct_ {T} (names : list string)
    (store : nat -> value -> T -> option T) (v : value) (old : T) : option T :=
  match v with
  | JObject ms => members names store ms old
  | JNull => Some old
  | _ => None
  end.

(** An array read into a slice.  Each element starts from the zero value,
    as it does the first time a document names the field; a document that
    names the field again would have its elements read over the earlier
    ones. *)
Definition slice_ {T} (elem : value -> T -> option T) (zero : T)
    (v : value) (old : list T) : option (list T) :=
  match v with
  | JArray vs => mapM (fun x => elem x zero) vs
  | JNull => Some []
  | _ => None
  end.

Definition FieldError_ : value -> FieldError.t -> option FieldError.t :=
  struct_ ["field"; "message"]
    (fun i v acc =>
       match i with
       | 0%nat => f ← string_ v (FieldError.Field acc);
                  Some (FieldError.mk f (FieldError.Message acc))
       | _ => m ← string_ v (FieldError.Message acc);
              Some (FieldError.mk (FieldError.Field acc) m)
       end).

Definition ErrorResponse_ : value -> ErrorResponse.t -> option ErrorResponse.t :=
  struct_ ["success"; "message"; "errors"; "retryAfter"]
    (fun i v acc =>
       let '(ErrorResponse.mk s m es ra) := acc in
       match i with
       | 0%nat => s' ← bool_ v s; Some (ErrorResponse.mk s' m es ra)
       | 1%nat => m' ← string_ v m; Some (ErrorResponse.mk s m' es ra)
       | 2%nat => es' ← slice_ FieldError_ FieldError.zero v es;
                  Some (ErrorResponse.mk s m es' ra)
       | _ => ra' ← int_ v ra; Some (ErrorResponse.mk s m es ra')
       end).

Definition ResponseData_ : value -> ResponseData.t -> option ResponseData.t :=
  struct_ ["emailId"; "status"; "queuedAt"]
    (fun i v acc =>
       let '(ResponseData.mk id st q) := acc in
       match i with
       | 0%nat => id' ← string_ v id; Some (ResponseData.mk id' st q)
       | 1%nat => st' ← string_ v st; Some (ResponseData.mk id st' q)
       | _ => q' ← Time_ v q; Some (ResponseData.mk id st q')
       end).

Definition SendEmailResponse_
  : value -> SendEmailResponse.t -> option SendEmailResponse.t :=
  struct_ ["success"; "message"; "data"]
    (fun i v acc =>
       let '(SendEmailResponse.mk s m d) := acc in
       match i with
       | 0%nat => s' ← bool_ v s; Some (SendEmailResponse.mk s' m d)
       | 1%nat => m' ← string_ v m; Some (SendEmailResponse.mk s m' d)
       | _ => d' ← ResponseData_ v d; Some (SendEmailResponse.mk s m d')
       end).

(** [json.Unmarshal] at the two types the package decodes.  On an error
    the partially filled value is never read by the callers; the zero value
    stands for it.  The two error texts are abridged: the offset of a
    syntax error and the names of the mismatched value and type are left
    out. *)
Definition Unmarshal {T} (dec : value -> T -> option T) (zero : T)
    (data : string) : T * option error :=
  match parse data with
  | None => (zero, Some (libError "encoding/json" "json: invalid JSON text"))
  | Some v =>
      match dec v zero with
      | Some x => (x, None)
      | None =>
          (zero, Some (libError "encoding/json"
                         "json: cannot unmarshal value into Go value"))
      end
  end.

Definition Unmarshal_ErrorResponse : string -> ErrorResponse.t * option error :=
  Unmarshal ErrorResponse_ ErrorResponse.zero.

Definition Unmarshal_SendEmailResponse
  : string -> SendEmailResponse.t * option error :=
  Unmarshal SendEmailResponse_ SendEmailResponse.zero.

(** Test documents are written with ['] for the double quote. *)
Fixpoint q (s : string) : string :=
  match s with
  | EmptyString => EmptyString
  | String c rest => String (if Ascii.eqb c "'" then dquote else c) (q rest)
  end.

End decode.

(** ** net/http: headers, requests, responses and clients *)

Module http.

(** [textproto.validHeaderFieldByte]: the token characters of RFC 7230. *)
Definition validHeaderFieldByte (c : ascii) : bool :=
  is_digit c || is_lower c || is_upper c
  || existsb (Ascii.eqb c)
       ["!"; "#"; "$"; "%"; "&"; "'"; "*"; "+"; "-"; "."; "^"; "_"; "`";
        "|"; "~"]%char.

Fixpoint all_bytes (p : ascii -> bool) (s : string) : bool :=
  match s with
  | EmptyString => true
  | String c rest => p c && all_bytes p rest
  end.

(** The second loop of [canonicalMIMEHeaderKey]: upper case at the start
    and after each dash, lower case elsewhere. *)
Fixpoint canon_loop (upper : bool) (s : string) : string :=
  match s with
  | EmptyString => EmptyString
  | String c rest =>
      let c' :=
        if upper && is_lower c then byte_of (byte_val c - 32)
        else if negb upper && is_upper c then byte_of (byte_val c + 32)
        else c in
      String c' (canon_loop (Ascii.eqb c' "-") rest)
  end.

(** [textproto.CanonicalMIMEHeaderKey]: a key holding a byte that is not
    a token character is returned unchanged. *)
Definition CanonicalMIMEHeaderKey (s : string) : string :=
  if all_bytes validHeaderFieldByte s then canon_loop true s else s.

(** [http.Header] is [map[string][]string]. *)
Abbreviation Header := (gmap string (list string)).

Definition Header_Get (h : Header) (key : string) : string :=
  match h !! CanonicalMIMEHeaderKey key with
  | Some (v :: _) => v
  | _ => ""
  end.

Definition Header_Set (h : Header) (key value : string) : Header :=
  <[CanonicalMIMEHeaderKey key := [value]]> h.

(** A response body: the bytes a full read yields, and the error the
    read ends with, if any. *)
Record ReadCloser := mkBody { data : string; readErr : option error }.

Record Request := mkRequest {
  Method : string;
  URL : string;
  ReqHeader : Header;
  ReqBody : option string;
  Ctx : option bool        (* a non-nil context, and whether it is done *)
}.

Record Response := mkResponse {
  StatusCode : Z;
  RespHeader : Header;
  Body : ReadCloser
}.

(** How an exchange fails: the error it ends with, and the URL of the
    request in flight at that point, which is the URL of the request handed
    to [Do] unless a redirect was followed. *)
Record Failure := mkFailure { FailedURL : string; Cause : error }.

(** What a transport makes of a request: a response, or the failure the
    exchange ends with, which [Do] reports in a [*url.Error]. *)
Definition RoundTripper := Request -> Response + Failure.

(** [http.Client], the fields the package touches. *)
Record Client := mkClient {
  Timeout : time.Duration;
  Transport : RoundTripper
}.

(** [validMethod]: a non-empty token. *)
Definition validMethod (method : string) : bool :=
  negb (is_empty method) && all_bytes validHeaderFieldByte method.

(** [strings.ToLower] on ASCII text. *)
Fixpoint ascii_ToLower (s : string) : string :=
  match s with
  | EmptyString => EmptyString
  | String c rest =>
      String (if is_upper c then byte_of (byte_val c + 32) else c)
             (ascii_ToLower rest)
  end.

(** [urlErrorOp]: the method as a [*url.Error] names it, its first letter
    kept and the rest in lower case when the method is printable ASCII. *)
Definition urlErrorOp (method : string) : string :=
  match method with
  | EmptyString => "Get"
  | String c rest =>
      if all_bytes (in_range 32 126) method then String c (ascii_ToLower rest)
      else method
  end.

End http.
Import http.

(** [io.ReadAll]. *)
Definition io_ReadAll (b : ReadCloser) : string * option error :=
  (data b, readErr b).

(** ** The standard-library functions the pipeline calls and the model
       leaves open *)

Record Stdlib := mkStdlib {
  (** [json.Marshal] of a request. *)
  json_Marshal : SendEmailRequest.t -> string * option error;
  (** [url.Parse]: the error, if the text is not a URL. *)
  url_Parse : string -> option error;
  (** [json.Unmarshal] into a zero [ErrorResponse]. *)
  json_Unmarshal_ErrorResponse : string -> ErrorResponse.t * option error;
  (** [json.Unmarshal] into a zero [SendEmailResponse]. *)
  json_Unmarshal_SendEmailResponse : string -> SendEmailResponse.t * option error;
  (** What a client without a transport of its own talks to. *)
  DefaultTransport : RoundTripper;
  (** How a [*url.Error] prints the URL of a request: what [URL.String]
      gives, any password masked, quoted as [%q] does. *)
  url_Error_URL : string -> string
}.

(** ** The store

    [*http.Client] values are shared between a [Client] and its caller, so
    they live in a store addressed by location; [nil] is [None].  [wire]
    records every request handed to [Do], with the client it went through. *)

Abbreviation loc := positive.

Record World := mkWorld {
  clients : gmap loc http.Client;
  wire : list (loc * Request)
}.

(** The result of a call that may dereference [nil]. *)
Inductive outcome (A : Type) :=
| Returns (a : A)
| Panics (reason : string).
Arguments Returns {A} a.
Arguments Panics {A} reason.

Definition alloc (h : http.Client) (w : World) : loc * World :=
  let l := fresh (dom (clients w)) in
  (l, mkWorld (<[l := h]> (clients w)) (wire w)).

(** ** client.go *)

Definition DefaultBaseURL : string := "https://api.autosend.com/v1".

Definition DefaultTimeout : time.Duration := 30 * time.Second.

Record Client := mkClient {
  apiKey : string;
  baseURL : string;
  httpClient : option loc
}.

Record Config := mkConfig {
  APIKey : string;
  BaseURL : string;
  HTTPClient : option loc;
  Timeout : time.Duration
}.

Section Pipeline.

Variable std : Stdlib.

Definition NewClient (apiKey : string) (w : World) : Client * World :=
  let (l, w) := alloc (http.mkClient DefaultTimeout (DefaultTransport std)) w in
  (mkClient apiKey DefaultBaseURL (Some l), w).

Definition NewClientWithConfig (config : Config) (w : World) : Client * World :=
  let BaseURL' :=
    if is_empty (BaseURL config) then DefaultBaseURL else BaseURL config in
  let (HTTPClient', w) :=
    match HTTPClient config with
    | None =>
        let timeout := Timeout config in
        let timeout := if timeout =? 0 then DefaultTimeout else timeout in
        let (l, w) := alloc (http.mkClient timeout (DefaultTransport std)) w in
        (Some l, w)
    | Some l => (Some l, w)
    end in
  (mkClient (APIKey config) BaseURL' HTTPClient', w).

(** [http.NewRequestWithContext]: the method is checked first, then the
    context, then the URL.  The text of the first error also quotes the
    method; that part of the text is left out. *)
Definition NewRequestWithContext (ctx : option bool) (method url : string)
    (body : option string) : option Request * option error :=
  let method := if is_empty method then "GET" else method in
  if negb (validMethod method) then
    (None, Some (errorString "net/http: invalid method"))
  else
    match ctx with
    | None => (None, Some (errorString "net/http: nil Context"))
    | Some _ =>
        match url_Parse std url with
        | Some err => (None, Some err)
        | None => (Some (mkRequest method url ∅ body ctx), None)
        end
    end.

Definition Header_Set_req (req : Request) (key value : string) : Request :=
  mkRequest (Method req) (URL req) (Header_Set (ReqHeader req) key value)
    (ReqBody req) (Ctx req).

(** The [*url.Error] that [Do] builds around a failure: its text is the
    operation, named after the method of the request handed to [Do], the
    quoted URL of the request in flight and the text of the cause. *)
Definition url_Error (req : Request) (f : Failure) : error :=
  urlError (urlErrorOp (Method req) +:+ " " +:+ url_Error_URL std (FailedURL f)
            +:+ ": " +:+ Error (Cause f)) (Cause f).

(** [c.httpClient.Do(req)]: a [nil] client pointer panics; otherwise the
    request goes on the wire and the transport answers; a failure comes
    back inside a [*url.Error]. *)
Definition Do (hc : option loc) (req : Request) (w : World)
  : outcome (option Response * option error) * World :=
  match hc with
  | None => (Panics "nil pointer dereference", w)
  | Some l =>
      match clients w !! l with
      | None => (Panics "nil pointer dereference", w)
      | Some h =>
          let w := mkWorld (clients w) (wire w ++ [(l, req)]) in
          match Transport h req with
          | inl resp => (Returns (Some resp, None), w)
          | inr f => (Returns (None, Some (url_Error req f)), w)
          end
      end
  end.

Definition doRequest (c : Client) (ctx : option bool) (method path : string)
    (body : option SendEmailRequest.t) (idempotencyKey : string) (w : World)
  : outcome (option Response * option error) * World :=
  let (bodyReader, merr) :=
    match body with
    | Some b => let (jsonBody, err) := json_Marshal std b in (Some jsonBody, err)
    | None => (None, None)
    end in
  match merr with
  | Some err =>
      (Returns (None, Some (Errorf_w "failed to marshal request body: " err)), w)
  | None =>
      let url := baseURL c +:+ path in
      match NewRequestWithContext ctx method url bodyReader with
      | (_, Some err) =>
          (Returns (None, Some (Errorf_w "failed to create request: " err)), w)
      | (None, None) => (Panics "nil pointer dereference", w)
      | (Some req, None) =>
          let req := Header_Set_req req "Authorization" ("Bearer " +:+ apiKey c) in
          let req := Header_Set_req req "Content-Type" "application/json" in
          let req := Header_Set_req req "User-Agent" "autosend-go/1.0.0" in
          let req :=
            if negb (is_empty idempotencyKey)
            then Header_Set_req req "Idempotency-Key" idempotencyKey
            else req in
          match Do (httpClient c) req w with
          | (Panics r, w) => (Panics r, w)
          | (Returns (_, Some err), w) =>
              (Returns (None, Some (Errorf_w "request failed: " err)), w)
          | (Returns (resp, None), w) => (Returns (resp, None), w)
          end
      end
  end.

Definition parseRateLimitHeaders (headers : Header) : RateLimitInfo.t :=
  let info := RateLimitInfo.zero in
  let limit := Header_Get headers "X-RateLimit-Limit" in
  let info :=
    if negb (is_empty limit)
    then RateLimitInfo.mk (fst (strconv.Atoi limit))
           (RateLimitInfo.Remaining info) (RateLimitInfo.Reset info)
    else info in
  let remaining := Header_Get headers "X-RateLimit-Remaining" in
  let info :=
    if negb (is_empty remaining)
    then RateLimitInfo.mk (RateLimitInfo.Limit info)
           (fst (strconv.Atoi remaining)) (RateLimitInfo.Reset info)
    else info in
  let reset := Header_Get headers "X-RateLimit-Reset" in
  let info :=
    if negb (is_empty reset)
    then RateLimitInfo.mk (RateLimitInfo.Limit info)
           (RateLimitInfo.Remaining info) (fst (strconv.ParseInt reset 10 64))
    else info in
  info.

Definition handleErrorResponse (resp : Response) : error :=
  match io_ReadAll (Body resp) with
  | (_, Some err) => Errorf_w "failed to read error response: " err
  | (body, None) =>
      match json_Unmarshal_ErrorResponse std body with
      | (_, Some err) =>
          errorString
            ("API error (status " +:+ itoa (StatusCode resp) +:+ "): " +:+ body)
      | (errResp, None) =>
          let rateLimitInfo := parseRateLimitHeaders (RespHeader resp) in
          APIErr (APIError.mk (StatusCode resp)
                    (ErrorResponse.Message errResp)
                    (ErrorResponse.Errors errResp)
                    (ErrorResponse.RetryAfter errResp)
                    (Some rateLimitInfo))
      end
  end.

(** ** The functional options *)

Definition ClientOption := Client -> World -> outcome Client * World.

Definition WithBaseURL (baseURL : string) : ClientOption :=
  fun c w => (Returns (mkClient (apiKey c) baseURL (httpClient c)), w).

Definition WithHTTPClient (httpClient : option loc) : ClientOption :=
  fun c w => (Returns (mkClient (apiKey c) (baseURL c) httpClient), w).

Definition WithTimeout (timeout : time.Duration) : ClientOption :=
  fun c w =>
    match httpClient c with
    | None => (Panics "nil pointer dereference", w)
    | Some l =>
        match clients w !! l with
        | None => (Panics "nil pointer dereference", w)
        | Some h =>
            (Returns c,
             mkWorld (<[l := http.mkClient timeout (Transport h)]> (clients w))
                     (wire w))
        end
    end.

(** The loop [for _, opt := range opts { opt(client) }]. *)
Fixpoint apply_opts (opts : list ClientOption) (client : Client) (w : World)
  : outcome Client * World :=
  match opts with
  | [] => (Returns client, w)
  | opt :: opts' =>
      match opt client w with
      | (Returns client', w') => apply_opts opts' client' w'
      | (Panics r, w') => (Panics r, w')
      end
  end.

Definition NewClientWithOptions (apiKey : string) (opts : list ClientOption)
    (w : World) : outcome Client * World :=
  let (l, w) := alloc (http.mkClient DefaultTimeout (DefaultTransport std)) w in
  let client := mkClient apiKey DefaultBaseURL (Some l) in
  apply_opts opts client w.

(** ** email.go *)

Definition validateSendEmailRequest (req : option SendEmailRequest.t)
  : option error :=
  match req with
  | None => Some (errorString "request cannot be nil")
  | Some req =>
      if is_empty (EmailAddress.Email (SendEmailRequest.To req)) then
        Some (errorString "to.email is required")
      else if is_empty (EmailAddress.Email (SendEmailRequest.From req)) then
        Some (errorString "from.email is required")
      else if is_empty (SendEmailRequest.TemplateID req)
              && is_empty (SendEmailRequest.HTML req)
              && is_empty (SendEmailRequest.Text req) then
        Some (errorString
                "either templateId or html/text content must be provided")
      else if is_empty (SendEmailRequest.TemplateID req)
              && is_empty (SendEmailRequest.Subject req) then
        Some (errorString "subject is required when not using a template")
      else None
  end.

Definition SendEmailWithIdempotency (c : Client) (ctx : option bool)
    (req : option SendEmailRequest.t) (idempotencyKey : string) (w : World)
  : outcome (option SendEmailResponse.t * option error) * World :=
  match validateSendEmailRequest req with
  | Some err => (Returns (None, Some err), w)
  | None =>
      match doRequest c ctx "POST" "/mails/send" req idempotencyKey w with
      | (Panics r, w) => (Panics r, w)
      | (Returns (_, Some err), w) => (Returns (None, Some err), w)
      | (Returns (None, None), w) => (Panics "nil pointer dereference", w)
      | (Returns (Some resp, None), w) =>
          if negb (StatusCode resp =? 200) then
            (Returns (None, Some (handleErrorResponse resp)), w)
          else
            match io_ReadAll (Body resp) with
            | (_, Some err) =>
                (Returns (None, Some (Errorf_w "failed to read response body: " err)), w)
            | (body, None) =>
                match json_Unmarshal_SendEmailResponse std body with
                | (_, Some err) =>
                    (Returns (None, Some (Errorf_w "failed to parse response: " err)), w)
                | (emailResp, None) => (Returns (Some emailResp, None), w)
                end
            end
      end
  end.

Definition SendEmail (c : Client) (ctx : option bool)
    (req : option SendEmailRequest.t) (w : World)
  : outcome (option SendEmailResponse.t * option error) * World :=
  SendEmailWithIdempotency c ctx req "" w.

End Pipeline.

(** ** The checks of the validator, as the specification lists them *)

Module ValidationSpec.

Definition field (f : SendEmailRequest.t -> string)
    (req : option SendEmailRequest.t) : string :=
  match req with
  | Some r => f r
  | None => ""
  end.

Definition to_email := field (fun r => EmailAddress.Email (SendEmailRequest.To r)).
Definition from_email := field (fun r => EmailAddress.Email (SendEmailRequest.From r)).

(** The five checks in order: what must hold, and the message when it does
    not.  Checks 2 to 5 read the fields of a request that check 1 has found
    to be present. *)
Definition checks : list ((option SendEmailRequest.t -> bool) * string) :=
  [ (fun req => bool_decide (req <> None),
     "request cannot be nil");
    (fun req => negb (is_empty (to_email req)),
     "to.email is required");
    (fun req => negb (is_empty (from_email req)),
     "from.email is required");
    (fun req => negb (is_empty (field SendEmailRequest.TemplateID req))
                || negb (is_empty (field SendEmailRequest.HTML req))
                || negb (is_empty (field SendEmailRequest.Text req)),
     "either templateId or html/text content must be provided");
    (fun req => negb (is_empty (field SendEmailRequest.TemplateID req))
                || negb (is_empty (field SendEmailRequest.Subject req)),
     "subject is required when not using a template") ].

(** The message of the first check that fails. *)
Fixpoint first_failure (cs : list ((option SendEmailRequest.t -> bool) * string))
    (req : option SendEmailRequest.t) : option string :=
  match cs with
  | [] => None
  | (ok, msg) :: cs' => if ok req then first_failure cs' req else Some msg
  end.

End ValidationSpec.

(** ** Sample data for the closed examples *)

Module Sample.

(** A stand-in for [json.Marshal]: the addresses and the subject of a
    request whose strings need no escaping. *)
Definition marshal (r : SendEmailRequest.t) : string * option error :=
  (decode.q "{'to':{'email':'" +:+ EmailAddress.Email (SendEmailRequest.To r)
   +:+ decode.q "'},'from':{'email':'"
   +:+ EmailAddress.Email (SendEmailRequest.From r)
   +:+ decode.q "'},'subject':'" +:+ SendEmailRequest.Subject r
   +:+ decode.q "'}", None).

(** A stand-in for [url.Parse]: only its first check, that the text holds
    no control byte. *)
Definition url_Parse (u : string) : option error :=
  if all_bytes (fun c => (32 <=? byte_val c) && negb (byte_val c =? 127)) u
  then None
  else Some (libError "net/url" "net/url: invalid control character in URL").

Definition answer (resp : Response) : RoundTripper := fun _ => inl resp.

Definition refuse : RoundTripper :=
  fun req => inr (mkFailure (URL req)
                    (libError "net" "dial tcp: connection refused")).

(** A stand-in for the URL in the text of a [*url.Error]: a URL that holds
    no password and needs no escaping, between quotes. *)
Definition url_Error_URL (u : string) : string :=
  String json.dquote (u +:+ String json.dquote EmptyString).

Definition std (t : RoundTripper) : Stdlib :=
  mkStdlib marshal url_Parse decode.Unmarshal_ErrorResponse
    decode.Unmarshal_SendEmailResponse t url_Error_URL.

(** The request of examples/basic. *)
Definition request : SendEmailRequest.t :=
  SendEmailRequest.mk
    (EmailAddress.mk "customer@example.com" "Jane Smith")
    (EmailAddress.mk "hello@mail.yourdomain.com" "Your Company")
    "Welcome to Our Platform!"
    "<h1>Welcome, {{name}}!</h1><p>Thanks for signing up.</p>"
    "" "" None "" ["welcome"; "onboarding"]
    {[ "name" := json.JString "Jane" ]} "" "" false.

(** A request that names a template and nothing else. *)
Definition template_request : SendEmailRequest.t :=
  SendEmailRequest.mk
    (EmailAddress.mk "customer@example.com" "")
    (EmailAddress.mk "hello@mail.yourdomain.com" "")
    "" "" "" "tmpl_welcome" None "" [] ∅ "" "" false.

(** The same request without a recipient. *)
Definition no_recipient : SendEmailRequest.t :=
  SendEmailRequest.mk
    (EmailAddress.mk "" "Jane Smith")
    (EmailAddress.mk "hello@mail.yourdomain.com" "Your Company")
    "Welcome" "<p>Hi</p>" "" "" None "" [] ∅ "" "" false.

Definition empty_world : World := mkWorld ∅ [].

Definition response (status : Z) (headers : Header) (body : string) : Response :=
  mkResponse status headers (mkBody body None).

(** A client as [NewClient] builds it in the empty store, and that store
    with transport [t] behind the client. *)
Definition client : Client := mkClient "key" DefaultBaseURL (Some 1%positive).

Definition world (t : RoundTripper) : World :=
  mkWorld {[ 1%positive := http.mkClient DefaultTimeout t ]} [].

Definition html_page : string := "<html><body>502 Bad Gateway</body></html>".

Definition rate_headers : Header :=
  {[ "X-Ratelimit-Limit" := ["50"];
     "X-Ratelimit-Remaining" := ["0"];
     "X-Ratelimit-Reset" := ["1700000000"] ]}.

End Sample.

(** The header map [doRequest] builds on the empty map of a new request. *)
Definition outbound_headers (c : Client) (idempotencyKey : string) : Header :=
  let h := Header_Set ∅ "Authorization" ("Bearer " +:+ apiKey c) in
  let h := Header_Set h "Content-Type" "application/json" in
  let h := Header_Set h "User-Agent" "autosend-go/1.0.0" in
  if negb (is_empty idempotencyKey)
  then Header_Set h "Idempotency-Key" idempotencyKey else h.

(** ** Well-formed clients *)

(** The client holds a pointer, and the pointer leads to an [http.Client]. *)
Definition client_ok (c : Client) (w : World) : Prop :=
  exists (l : loc) (h : http.Client),
    httpClient c = Some l /\ clients w !! l = Some h.

(** The request [doRequest] hands to [Do] once the body is encoded. *)
Definition built_request (c : Client) (ctx : bool) (method path : string)
    (jsonBody : option string) (idempotencyKey : string) : Request :=
  mkRequest method (baseURL c +:+ path) (outbound_headers c idempotencyKey)
    jsonBody (Some ctx).

(** ** The retry loop of the error-handling example

    [sendEmailWithRetry] is a caller of the package.  What it prints and how
    long it sleeps are recorded as events; the text [Printf] renders is not
    built, its format and arguments are kept. *)

Module retry.

(** A 64-bit signed integer after an overflowing operation. *)
Definition wrap64 (z : Z) : Z := (z + 2 ^ 63) mod 2 ^ 64 - 2 ^ 63.

Inductive arg :=
| argDuration (d : time.Duration)
| argInt (n : Z)
| argError (e : error).

Inductive event :=
| Printf (format : string) (args : list arg)
| Sleep (d : time.Duration).

(** [time.Duration(1<<attempt) * time.Second]. *)
Definition backoff (attempt : Z) : time.Duration :=
  wrap64 (wrap64 (Z.shiftl 1 attempt) * time.Second).

Section Loop.

Variable std : Stdlib.

(** The [for] loop: [n] iterations are left, [attempt] is the counter. *)
Fixpoint loop (n : nat) (attempt maxRetries : Z) (ctx : option bool)
    (client : Client) (req : option SendEmailRequest.t)
    (lastErr : option error) (w : World) (out : list event)
  : outcome (option SendEmailResponse.t * option error) * World * list event :=
  match n with
  | O =>
      (Returns (None,
                Some (match lastErr with
                      | Some e => Errorf_w "max retries exceeded: " e
                      | None => errorString "max retries exceeded: %!w(<nil>)"
                      end)), w, out)
  | S n' =>
      match SendEmail std client ctx req w with
      | (Panics r, w) => (Panics r, w, out)
      | (Returns (resp, None), w) => (Returns (resp, None), w, out)
      | (Returns (_, Some err), w) =>
          match As_APIError err with
          | Some apiErr =>
              if APIError.IsRateLimitError apiErr then
                let waitTime :=
                  wrap64 (APIError.GetRetryAfter apiErr * time.Second) in
                let waitTime :=
                  if waitTime =? 0 then backoff attempt else waitTime in
                loop n' (attempt + 1) maxRetries ctx client req (Some err) w
                  (out ++ [Printf "Rate limited. Waiting %v before retry %d/%d...\n"
                             [argDuration waitTime; argInt (attempt + 1);
                              argInt maxRetries];
                           Sleep waitTime])%list
              else if APIError.IsValidationError apiErr then
                (Returns (None, Some (APIErr apiErr)), w,
                 (out ++ [Printf "Validation error: %v\n"
                            [argError (APIErr apiErr)]])%list)
              else if APIError.IsAuthenticationError apiErr then
                (Returns (None, Some (APIErr apiErr)), w,
                 (out ++ [Printf "Authentication error: %v\n"
                            [argError (APIErr apiErr)]])%list)
              else if APIError.IsServerError apiErr then
                let waitTime := backoff attempt in
                loop n' (attempt + 1) maxRetries ctx client req (Some err) w
                  (out ++ [Printf "Server error. Waiting %v before retry %d/%d...\n"
                             [argDuration waitTime; argInt (attempt + 1);
                              argInt maxRetries];
                           Sleep waitTime])%list
              else
                (Returns (None, Some (APIErr apiErr)), w,
                 (out ++ [Printf "API error: %v\n" [argError (APIErr apiErr)]])%list)
          | None =>
              let out :=
                if attempt <? maxRetries - 1 then
                  let waitTime := backoff attempt in
                  (out ++ [Printf "Error: %v. Waiting %v before retry %d/%d...\n"
                             [argError err; argDuration waitTime;
                              argInt (attempt + 1); argInt maxRetries];
                           Sleep waitTime])%list
                else out in
              loop n' (attempt + 1) maxRetries ctx client req (Some err) w out
          end
      end
  end.

Definition sendEmailWithRetry (ctx : option bool) (client : Client)
    (req : option SendEmailRequest.t) (maxRetries : Z) (w : World)
  : outcome (option SendEmailResponse.t * option error) * World * list event :=
  loop (Z.to_nat maxRetries) 0 maxRetries ctx client req None w [].

End Loop.

(** The sleeps among the events, in order. *)
Definition sleeps (out : list event) : list time.Duration :=
  omap (fun e => match e with Sleep d => Some d | Printf _ _ => None end) out.

End retry.

(** ** The options of the package, as data *)

Inductive opt :=
| OptBaseURL (baseURL : string)
| OptHTTPClient (httpClient : option loc)
| OptTimeout (timeout : time.Duration).

Definition run_opt (o : opt) : ClientOption :=
  match o with
  | OptBaseURL u => WithBaseURL u
  | OptHTTPClient p => WithHTTPClient p
  | OptTimeout t => WithTimeout t
  end.

(** ** The number a decimal numeral denotes *)

(** The digits of [d] read onto the accumulator [acc], most significant
    first. *)
Fixpoint decimal_value (d : Decimal.uint) (acc : Z) : Z :=
  match d with
  | Decimal.Nil => acc
  | Decimal.D0 l => decimal_value l (acc * 10 + 0)
  | Decimal.D1 l => decimal_value l (acc * 10 + 1)
  | Decimal.D2 l => decimal_value l (acc * 10 + 2)
  | Decimal.D3 l => decimal_value l (acc * 10 + 3)
  | Decimal.D4 l => decimal_value l (acc * 10 + 4)
  | Decimal.D5 l => decimal_value l (acc * 10 + 5)
  | Decimal.D6 l => decimal_value l (acc * 10 + 6)
  | Decimal.D7 l => decimal_value l (acc * 10 + 7)
  | Decimal.D8 l => decimal_value l (acc * 10 + 8)
  | Decimal.D9 l => decimal_value l (acc * 10 + 9)
  end.

(** * Facts *)

Lemma is_empty_true (s : string) : is_empty s = true <-> s = "".
Proof. destruct s; simpl; split; congruence. Qed.

Lemma is_empty_false (s : string) : is_empty s = false <-> s <> "".
Proof. destruct s; simpl; split; congruence. Qed.

Lemma negb_is_empty (s : string) : negb (is_empty s) = true <-> s <> "".
Proof. rewrite negb_true_iff. apply is_empty_false. Qed.

(** ** The predicates of [APIError] *)

(** C7: each classification predicate of an APIError is decided by its
    StatusCode alone (429, 400, 401, 403, the range 500 to 599), and
    GetRetryAfter is the stored RetryAfter when the status is 429 and 0
    otherwise. *)
Theorem C7_predicates_by_status_code (e : APIError.t) :
  (APIError.IsRateLimitError e = true <-> APIError.StatusCode e = 429) /\
  (APIError.IsValidationError e = true <-> APIError.StatusCode e = 400) /\
  (APIError.IsAuthenticationError e = true <-> APIError.StatusCode e = 401) /\
  (APIError.IsForbiddenError e = true <-> APIError.StatusCode e = 403) /\
  (APIError.IsServerError e = true <->
     500 <= APIError.StatusCode e < 600) /\
  (APIError.IsRateLimitError e = true ->
     APIError.GetRetryAfter e = APIError.RetryAfter e) /\
  (APIError.IsRateLimitError e = false -> APIError.GetRetryAfter e = 0) /\
  (forall e' : APIError.t,
     APIError.StatusCode e' = APIError.StatusCode e ->
     APIError.IsRateLimitError e' = APIError.IsRateLimitError e /\
     APIError.IsValidationError e' = APIError.IsValidationError e /\
     APIError.IsAuthenticationError e' = APIError.IsAuthenticationError e /\
     APIError.IsForbiddenError e' = APIError.IsForbiddenError e /\
     APIError.IsServerError e' = APIError.IsServerError e).
Proof.
  unfold APIError.GetRetryAfter, APIError.IsRateLimitError,
    APIError.IsValidationError, APIError.IsAuthenticationError,
    APIError.IsForbiddenError, APIError.IsServerError.
  repeat split; try lia.
  - now intros ->.
  - now intros ->.
Qed.

(** A 503 that carries a retry hint: a server error, not a rate limit, and
    the hint is withheld. *)
Lemma C7_predicates_witness :
  let e := APIError.mk 503 "unavailable" [] 30 None in
  APIError.IsServerError e = true /\ APIError.IsRateLimitError e = false /\
  APIError.GetRetryAfter e = 0 /\
  APIError.GetRetryAfter (APIError.mk 429 "slow down" [] 30 None) = 30.
Proof.
  intros e.
  destruct (C7_predicates_by_status_code e)
    as (_ & _ & _ & _ & Hsrv & _ & Hzero & _).
  destruct (C7_predicates_by_status_code (APIError.mk 429 "slow down" [] 30 None))
    as (Hrl & _ & _ & _ & _ & Hget & _).
  split; [apply Hsrv; simpl; lia|].
  split; [reflexivity|].
  split; [apply Hzero; reflexivity|].
  apply Hget, Hrl. reflexivity.
Defined.

(** ** Validation *)

Lemma validate_nil : validateSendEmailRequest None
                     = Some (errorString "request cannot be nil").
Proof. reflexivity. Qed.

(** The validator accepts exactly the requests that are present, name both
    addresses, carry a template or a body, and carry a template or a
    subject. *)
Lemma validate_ok_iff (r : SendEmailRequest.t) :
  validateSendEmailRequest (Some r) = None <->
  EmailAddress.Email (SendEmailRequest.To r) <> "" /\
  EmailAddress.Email (SendEmailRequest.From r) <> "" /\
  (SendEmailRequest.TemplateID r <> "" \/ SendEmailRequest.HTML r <> ""
   \/ SendEmailRequest.Text r <> "") /\
  (SendEmailRequest.TemplateID r <> "" \/ SendEmailRequest.Subject r <> "").
Proof.
  unfold validateSendEmailRequest.
  destruct (EmailAddress.Email (SendEmailRequest.To r)),
           (EmailAddress.Email (SendEmailRequest.From r)),
           (SendEmailRequest.TemplateID r), (SendEmailRequest.HTML r),
           (SendEmailRequest.Text r), (SendEmailRequest.Subject r);
    simpl; split; try discriminate; try tauto;
    try (intros _; repeat split; (discriminate || (left; discriminate)
         || (right; left; discriminate) || (right; right; discriminate)
         || (right; discriminate))).
Qed.

(** C4: validateSendEmailRequest performs the five checks of the
    specification in their order and stops at the first that fails (non-nil
    request, to.email, from.email, one of templateId/html/text, subject
    unless a template is named); the five messages are pairwise distinct;
    and a request with to.email, from.email and templateId passes whatever
    html, text and subject hold. *)
Theorem C4_validate_five_ordered_checks (req : option SendEmailRequest.t) :
  validateSendEmailRequest req
    = errorString <$> ValidationSpec.first_failure ValidationSpec.checks req
  /\ NoDup (map snd ValidationSpec.checks)
  /\ List.length ValidationSpec.checks = 5%nat
  /\ (forall r : SendEmailRequest.t,
        req = Some r ->
        EmailAddress.Email (SendEmailRequest.To r) <> "" ->
        EmailAddress.Email (SendEmailRequest.From r) <> "" ->
        SendEmailRequest.TemplateID r <> "" ->
        validateSendEmailRequest req = None).
Proof.
  split; [|split; [|split]].
  - destruct req as [r|]; [|reflexivity].
    unfold validateSendEmailRequest, ValidationSpec.checks,
      ValidationSpec.first_failure, ValidationSpec.to_email,
      ValidationSpec.from_email, ValidationSpec.field.
    rewrite bool_decide_eq_true_2 by discriminate.
    destruct (is_empty (EmailAddress.Email (SendEmailRequest.To r)));
      [reflexivity|].
    destruct (is_empty (EmailAddress.Email (SendEmailRequest.From r)));
      [reflexivity|].
    destruct (is_empty (SendEmailRequest.TemplateID r)),
             (is_empty (SendEmailRequest.HTML r)),
             (is_empty (SendEmailRequest.Text r)),
             (is_empty (SendEmailRequest.Subject r)); reflexivity.
  - simpl. repeat constructor; rewrite ?elem_of_cons, ?elem_of_nil;
      intros H; repeat (destruct H as [H|H]; [discriminate H|]); exact H.
  - reflexivity.
  - intros r -> Hto Hfrom Htpl. apply validate_ok_iff. tauto.
Qed.

(** The template-only request passes. *)
Lemma C4_validate_witness :
  validateSendEmailRequest (Some Sample.template_request) = None.
Proof.
  refine (proj2 (proj2 (proj2
            (C4_validate_five_ordered_checks (Some Sample.template_request))))
            Sample.template_request eq_refl _ _ _);
    simpl; discriminate.
Defined.

(** ** Validation comes before everything else *)

Section PipelineFacts.

Variable std : Stdlib.

(** C6: a request that fails validation (no to.email, no from.email, no
    content, or no subject while no template is named) makes SendEmail and
    SendEmailWithIdempotency return the validation failure with the store
    untouched: nothing is built and nothing goes on the wire. *)
Theorem C6_invalid_request_never_reaches_transport
    (c : Client) (ctx : option bool) (r : SendEmailRequest.t)
    (idempotencyKey : string) (w : World) :
  EmailAddress.Email (SendEmailRequest.To r) = ""
  \/ EmailAddress.Email (SendEmailRequest.From r) = ""
  \/ (SendEmailRequest.TemplateID r = "" /\ SendEmailRequest.HTML r = ""
      /\ SendEmailRequest.Text r = "")
  \/ (SendEmailRequest.TemplateID r = "" /\ SendEmailRequest.Subject r = "") ->
  exists err : error,
    validateSendEmailRequest (Some r) = Some err
    /\ SendEmailWithIdempotency std c ctx (Some r) idempotencyKey w
       = (Returns (None, Some err), w)
    /\ SendEmail std c ctx (Some r) w = (Returns (None, Some err), w)
    /\ wire (snd (SendEmailWithIdempotency std c ctx (Some r) idempotencyKey w))
       = wire w.
Proof.
  intros Hmissing.
  destruct (validateSendEmailRequest (Some r)) as [err|] eqn:Hv.
  - exists err. unfold SendEmail, SendEmailWithIdempotency. rewrite Hv.
    repeat split; reflexivity.
  - apply validate_ok_iff in Hv. destruct Hv as (Hto & Hfrom & Hc & Hs).
    exfalso.
    destruct Hmissing as [H|[H|[(H1 & H2 & H3)|(H1 & H2)]]]; try tauto.
Qed.

(** The same holds for a [nil] request. *)
Lemma nil_request_never_reaches_transport (c : Client) (ctx : option bool)
    (idempotencyKey : string) (w : World) :
  SendEmailWithIdempotency std c ctx None idempotencyKey w
  = (Returns (None, Some (errorString "request cannot be nil")), w).
Proof. reflexivity. Qed.

End PipelineFacts.

(** The request without a recipient, sent through a client whose transport
    would answer: the failure comes back and the wire stays empty. *)
Lemma C6_invalid_request_witness :
  let std := Sample.std (Sample.answer (Sample.response 200 ∅ "{}")) in
  let (c, w) := NewClient std "key" Sample.empty_world in
  exists err : error,
    validateSendEmailRequest (Some Sample.no_recipient) = Some err
    /\ SendEmailWithIdempotency std c (Some false) (Some Sample.no_recipient) "k1" w
       = (Returns (None, Some err), w)
    /\ SendEmail std c (Some false) (Some Sample.no_recipient) w
       = (Returns (None, Some err), w)
    /\ wire (snd (SendEmailWithIdempotency std c (Some false)
                    (Some Sample.no_recipient) "k1" w)) = wire w.
Proof.
  intros std.
  destruct (NewClient std "key" Sample.empty_world) as [c w].
  apply (C6_invalid_request_never_reaches_transport std c (Some false)
           Sample.no_recipient "k1" w).
  left. reflexivity.
Defined.

(** ** strconv: what a discarded error leaves behind *)



(** The other error of [strconv] does not leave zero behind: a number too
    large for 64 bits is clamped. *)
Lemma Atoi_out_of_range :
  strconv.Atoi "99999999999999999999" = (2 ^ 63 - 1, Some strconv.ErrRange).
Proof. vm_compute. reflexivity. Qed.

(** Headers that are absent or are not numbers give zeros; a number too
    large is clamped to the largest [int]. *)
Example parseRateLimitHeaders_samples :
  parseRateLimitHeaders {[ "X-Ratelimit-Limit" := ["soon"];
                           "X-Ratelimit-Reset" := ["12x"] ]}
  = RateLimitInfo.mk 0 0 0
  /\ parseRateLimitHeaders {[ "X-Ratelimit-Limit" := ["99999999999999999999"] ]}
     = RateLimitInfo.mk (2 ^ 63 - 1) 0 0.
Proof. split; vm_compute; reflexivity. Qed.

(** ** The error classifier *)

Section ClassifierFacts.

Variable std : Stdlib.

(** The three fields of the rate-limit snapshot, header by header. *)
Lemma parseRateLimitHeaders_fields (headers : Header) :
  let field (key : string) (parse : string -> Z) :=
    if is_empty (Header_Get headers key) then 0
    else parse (Header_Get headers key) in
  parseRateLimitHeaders headers
  = RateLimitInfo.mk
      (field "X-RateLimit-Limit" (fun s => fst (strconv.Atoi s)))
      (field "X-RateLimit-Remaining" (fun s => fst (strconv.Atoi s)))
      (field "X-RateLimit-Reset" (fun s => fst (strconv.ParseInt s 10 64))).
Proof.
  unfold parseRateLimitHeaders.
  destruct (is_empty (Header_Get headers "X-RateLimit-Limit")),
           (is_empty (Header_Get headers "X-RateLimit-Remaining")),
           (is_empty (Header_Get headers "X-RateLimit-Reset")); reflexivity.
Qed.

(** C1 (as the code has it): handleErrorResponse always returns an error
    value.  When the body is read and parses as ErrorResponse it is an
    APIError with the status code of the response and the message, field
    errors and retryAfter of the body.  When the body does not parse it is
    not an APIError but a plain error whose text is the prefix
    "API error (status N): " followed by the raw body; when the body cannot
    be read it is a plain error wrapping the read error. *)
Theorem C1_classifier_results (resp : Response) :
  (forall (body : string) (errResp : ErrorResponse.t),
     io_ReadAll (Body resp) = (body, None) ->
     json_Unmarshal_ErrorResponse std body = (errResp, None) ->
     exists a : APIError.t,
       handleErrorResponse std resp = APIErr a
       /\ APIError.StatusCode a = StatusCode resp
       /\ APIError.Message a = ErrorResponse.Message errResp
       /\ APIError.Errors a = ErrorResponse.Errors errResp
       /\ APIError.RetryAfter a = ErrorResponse.RetryAfter errResp)
  /\ (forall (body : string) (partial : ErrorResponse.t) (err : error),
        io_ReadAll (Body resp) = (body, None) ->
        json_Unmarshal_ErrorResponse std body = (partial, Some err) ->
        handleErrorResponse std resp
        = errorString ("API error (status " +:+ itoa (StatusCode resp) +:+ "): "
                       +:+ body)
        /\ As_APIError (handleErrorResponse std resp) = None)
  /\ (forall (read : string) (err : error),
        io_ReadAll (Body resp) = (read, Some err) ->
        handleErrorResponse std resp
        = wrapError ("failed to read error response: " +:+ Error err) err).
Proof.
  unfold handleErrorResponse. split; [|split].
  - intros body errResp -> ->. eexists. repeat split; reflexivity.
  - intros body partial err -> ->. split; reflexivity.
  - intros read err ->. reflexivity.
Qed.


End ClassifierFacts.

(** A 400 whose body lists one field error: the APIError carries it. *)
Lemma C1_classifier_witness :
  let std := Sample.std Sample.refuse in
  let body := decode.q
    "{'success':false,'message':'invalid','errors':[{'field':'to.email','message':'invalid format'}]}" in
  let resp := Sample.response 400 ∅ body in
  exists a : APIError.t,
    handleErrorResponse std resp = APIErr a
    /\ APIError.StatusCode a = 400
    /\ APIError.Message a = "invalid"
    /\ APIError.Errors a = [FieldError.mk "to.email" "invalid format"]
    /\ APIError.RetryAfter a = 0.
Proof.
  intros std body resp.
  exact (proj1 (C1_classifier_results std resp) body
           (ErrorResponse.mk false "invalid"
              [FieldError.mk "to.email" "invalid format"] 0)
           eq_refl eq_refl).
Defined.

(** An HTML error page behind a 502: the classifier does not return an
    APIError with the page as its message; it returns a plain error, in
    which [errors.As] finds no APIError. *)
Lemma C1_counterexample_html_error_page :
  let std := Sample.std Sample.refuse in
  let resp := Sample.response 502 ∅ Sample.html_page in
  StatusCode resp <> 200
  /\ snd (json_Unmarshal_ErrorResponse std Sample.html_page) <> None
  /\ handleErrorResponse std resp
     = errorString "API error (status 502): <html><body>502 Bad Gateway</body></html>"
  /\ As_APIError (handleErrorResponse std resp) = None
  /\ ~ (exists a : APIError.t,
          handleErrorResponse std resp = APIErr a
          /\ APIError.Message a = Sample.html_page
          /\ APIError.Errors a = []).
Proof.
  intros std resp.
  assert (E : handleErrorResponse std resp
              = errorString
                  "API error (status 502): <html><body>502 Bad Gateway</body></html>")
    by (vm_compute; reflexivity).
  split; [discriminate|]. split; [vm_compute; discriminate|].
  split; [exact E|]. split; [rewrite E; reflexivity|].
  intros (a & Ha & _). rewrite E in Ha. discriminate.
Qed.



(** ** Construction from a [Config] *)

Section ConfigFacts.

Variable std : Stdlib.

Lemma alloc_fresh (h : http.Client) (w : World) :
  clients w !! fst (alloc h w) = None
  /\ clients (snd (alloc h w)) = <[fst (alloc h w) := h]> (clients w)
  /\ wire (snd (alloc h w)) = wire w.
Proof.
  unfold alloc. simpl. split; [|split; reflexivity].
  apply not_elem_of_dom, is_fresh.
Qed.

(** C3 (as the code has it): NewClientWithConfig copies the API key,
    replaces an empty BaseURL by the default and keeps a non-empty one.
    When HTTPClient is nil it allocates a new http.Client whose Timeout is
    Config.Timeout, or the 30 s default when that is zero.  When HTTPClient
    is supplied it is used as it is: the store is unchanged and
    Config.Timeout plays no part. *)
Theorem C3_config_defaults (config : Config) (w : World) :
  let c := fst (NewClientWithConfig std config w) in
  let w' := snd (NewClientWithConfig std config w) in
  apiKey c = APIKey config
  /\ (BaseURL config = "" -> baseURL c = DefaultBaseURL)
  /\ (BaseURL config <> "" -> baseURL c = BaseURL config)
  /\ wire w' = wire w
  /\ match HTTPClient config with
     | Some l => httpClient c = Some l /\ w' = w
     | None =>
         exists l : loc,
           httpClient c = Some l
           /\ clients w !! l = None
           /\ clients w'
              = <[l := http.mkClient
                         (if Timeout config =? 0 then DefaultTimeout
                          else Timeout config)
                         (DefaultTransport std)]> (clients w)
     end.
Proof.
  unfold NewClientWithConfig.
  destruct (HTTPClient config) as [l|].
  - simpl. split; [reflexivity|]. split; [now intros ->%is_empty_true|].
    split; [now intros ->%is_empty_false|]. auto.
  - pose proof (alloc_fresh
                  (http.mkClient
                     (if Timeout config =? 0 then DefaultTimeout else Timeout config)
                     (DefaultTransport std)) w) as (Hf & Hc & Hw).
    destruct (alloc _ w) as [l w1]. simpl in *.
    split; [reflexivity|]. split; [now intros ->%is_empty_true|].
    split; [now intros ->%is_empty_false|]. split; [exact Hw|].
    exists l. auto.
Qed.

End ConfigFacts.

(** A caller's client with a 5 s timeout, passed together with
    Timeout = 10 s: the client is used as it is and keeps its 5 s. *)
Lemma C3_counterexample_timeout_ignored :
  let std := Sample.std Sample.refuse in
  let hc : loc := 1%positive in
  let w := mkWorld {[ hc := http.mkClient (5 * time.Second) Sample.refuse ]} [] in
  let config := mkConfig "key" "" (Some hc) (10 * time.Second) in
  let c := fst (NewClientWithConfig std config w) in
  let w' := snd (NewClientWithConfig std config w) in
  Timeout config <> 0
  /\ httpClient c = Some hc
  /\ http.Timeout <$> (clients w' !! hc) = Some (5 * time.Second)
  /\ ~ (exists h : http.Client,
          httpClient c ≫= (fun l => clients w' !! l) = Some h
          /\ http.Timeout h = Timeout config).
Proof.
  intros std hc w config c w'.
  split; [vm_compute; discriminate|]. split; [reflexivity|].
  split; [vm_compute; reflexivity|].
  intros (h & Hh & Ht).
  assert (E : httpClient c ≫= (fun l => clients w' !! l)
              = Some (http.mkClient (5 * time.Second) Sample.refuse))
    by (vm_compute; reflexivity).
  rewrite E in Hh. injection Hh as <-. vm_compute in Ht. discriminate.
Qed.

(** An empty Config: default endpoint, and a new client with the default
    timeout. *)
Lemma C3_config_defaults_witness :
  let std := Sample.std Sample.refuse in
  let r := NewClientWithConfig std (mkConfig "key" "" None 0) Sample.empty_world in
  baseURL (fst r) = DefaultBaseURL
  /\ exists l : loc,
       httpClient (fst r) = Some l
       /\ clients (snd r) !! l = Some (http.mkClient DefaultTimeout Sample.refuse).
Proof.
  intros std r.
  destruct (C3_config_defaults std (mkConfig "key" "" None 0) Sample.empty_world)
    as (_ & Hurl & _ & _ & l & Hl & _ & Hc).
  split; [exact (Hurl eq_refl)|].
  exists l. split; [exact Hl|].
  unfold r. rewrite Hc. apply lookup_insert_eq.
Defined.

(** ** The request pipeline *)

Section RequestFacts.

Variable std : Stdlib.

Ltac break_match :=
  match goal with
  | |- context [match ?x with _ => _ end] => destruct x eqn:?
  | H : context [match ?x with _ => _ end] |- _ => destruct x eqn:?
  end.

Lemma outbound_headers_lookup (c : Client) (key : string) :
  outbound_headers c key !! "Idempotency-Key"
    = (if is_empty key then None else Some [key])
  /\ outbound_headers c key !! "Authorization" = Some ["Bearer " +:+ apiKey c]
  /\ outbound_headers c key !! "Content-Type" = Some ["application/json"]
  /\ outbound_headers c key !! "User-Agent" = Some ["autosend-go/1.0.0"].
Proof.
  unfold outbound_headers, Header_Set.
  change (CanonicalMIMEHeaderKey "Authorization") with "Authorization".
  change (CanonicalMIMEHeaderKey "Content-Type") with "Content-Type".
  change (CanonicalMIMEHeaderKey "User-Agent") with "User-Agent".
  change (CanonicalMIMEHeaderKey "Idempotency-Key") with "Idempotency-Key".
  destruct (is_empty key); simpl; repeat split; simplify_map_eq; reflexivity.
Qed.

Lemma NewRequest_ok (ctx : option bool) (method url : string)
    (body : option string) (req : Request) :
  NewRequestWithContext std ctx method url body = (Some req, None) ->
  URL req = url /\ ReqHeader req = ∅.
Proof.
  unfold NewRequestWithContext.
  destruct (negb (validMethod _)); [discriminate|].
  destruct ctx; [|discriminate].
  destruct (url_Parse std url); [discriminate|].
  intros [= <-]. split; reflexivity.
Qed.

(** What [doRequest] leaves on the wire: nothing, or one request with the
    headers above, sent through the client's own [*http.Client]. *)
Lemma doRequest_wire (c : Client) (ctx : option bool) (method path : string)
    (body : option SendEmailRequest.t) (key : string) (w : World) :
  let w' := snd (doRequest std c ctx method path body key w) in
  clients w' = clients w
  /\ (wire w' = wire w
      \/ exists (l : loc) (req : Request),
           httpClient c = Some l
           /\ wire w' = (wire w ++ [(l, req)])%list
           /\ URL req = baseURL c +:+ path
           /\ ReqHeader req = outbound_headers c key).
Proof.
  unfold doRequest.
  destruct (match body with
            | Some b => let (jsonBody, err) := json_Marshal std b in (Some jsonBody, err)
            | None => (None, None)
            end) as [bodyReader [err|]]; [split; auto|].
  destruct (NewRequestWithContext std ctx method (baseURL c +:+ path) bodyReader)
    as [[req|] [err|]] eqn:Hreq; try (split; auto; fail).
  apply NewRequest_ok in Hreq as [Hurl Hhdr].
  match goal with
  | |- context [Do std (httpClient c) ?r w] => set (final := r)
  end.
  assert (Hfinal : URL final = baseURL c +:+ path
                   /\ ReqHeader final = outbound_headers c key).
  { unfold final, outbound_headers, Header_Set_req.
    destruct (negb (is_empty key)); cbn [URL ReqHeader]; rewrite Hhdr; auto. }
  clearbody final. unfold Do.
  destruct (httpClient c) as [l|]; [|split; auto].
  destruct (clients w !! l) as [h|]; [|split; auto].
  destruct (Transport h final); cbn [snd clients wire];
    (split; [reflexivity|]); right; exists l, final; tauto.
Qed.

(** When the body encodes, the request can be built and the client holds
    an [*http.Client], exactly one request goes on the wire. *)
Lemma doRequest_dispatches (c : Client) (ctx : bool) (method path : string)
    (r : SendEmailRequest.t) (jsonBody key : string) (w : World)
    (l : loc) (h : http.Client) :
  json_Marshal std r = (jsonBody, None) ->
  validMethod method = true ->
  url_Parse std (baseURL c +:+ path) = None ->
  httpClient c = Some l ->
  clients w !! l = Some h ->
  wire (snd (doRequest std c (Some ctx) method path (Some r) key w))
  = (wire w ++ [(l, mkRequest method (baseURL c +:+ path)
                       (outbound_headers c key) (Some jsonBody) (Some ctx))])%list.
Proof.
  intros Hm Hv Hu Hc Hl. unfold doRequest, NewRequestWithContext.
  rewrite Hm, Hu.
  assert (Hne : is_empty method = false).
  { unfold validMethod in Hv. now destruct (is_empty method). }
  rewrite Hne, Hv. cbn [negb].
  unfold Do. rewrite Hc, Hl. unfold outbound_headers, Header_Set_req.
  destruct (negb (is_empty key)); cbn [Method URL ReqHeader ReqBody Ctx];
    destruct (Transport h _); reflexivity.
Qed.

(** Every error [doRequest] returns is one of its three wrappers. *)
Lemma doRequest_errors (c : Client) (ctx : option bool) (method path : string)
    (body : option SendEmailRequest.t) (key : string) (w w' : World)
    (resp : option Response) (e : error) :
  doRequest std c ctx method path body key w = (Returns (resp, Some e), w') ->
  resp = None
  /\ exists (prefix : string) (cause : error),
       e = Errorf_w prefix cause
       /\ (prefix = "failed to marshal request body: "
           \/ prefix = "failed to create request: "
           \/ prefix = "request failed: ").
Proof.
  unfold doRequest.
  destruct (match body with
            | Some b => let (jsonBody, err) := json_Marshal std b in (Some jsonBody, err)
            | None => (None, None)
            end) as [bodyReader [err|]].
  { intros [= <- <- <-]. split; eauto 7. }
  destruct (NewRequestWithContext std ctx method (baseURL c +:+ path) bodyReader)
    as [[req|] [err|]]; try discriminate;
    try (intros [= <- <- <-]; split; eauto 7; fail).
  match goal with
  | |- context [Do std (httpClient c) ?r w] => generalize r; intros final
  end.
  destruct (Do std (httpClient c) final w) as [[[r [err|]]|reason] w1];
    try discriminate.
  intros [= <- <- <-]. split; eauto 7.
Qed.

Lemma validate_errors (req : option SendEmailRequest.t) (e : error) :
  validateSendEmailRequest req = Some e -> exists s : string, e = errorString s.
Proof.
  unfold validateSendEmailRequest.
  repeat break_match; intros; simplify_eq; eauto.
Qed.

Lemma send_after_response (c : Client) (ctx : option bool)
    (req : option SendEmailRequest.t) (key : string) (w w' : World)
    (resp : Response) :
  validateSendEmailRequest req = None ->
  doRequest std c ctx "POST" "/mails/send" req key w
    = (Returns (Some resp, None), w') ->
  SendEmailWithIdempotency std c ctx req key w
  = if negb (StatusCode resp =? 200) then
      (Returns (None, Some (handleErrorResponse std resp)), w')
    else
      match io_ReadAll (Body resp) with
      | (_, Some err) =>
          (Returns (None, Some (Errorf_w "failed to read response body: " err)), w')
      | (body, None) =>
          match json_Unmarshal_SendEmailResponse std body with
          | (_, Some err) =>
              (Returns (None, Some (Errorf_w "failed to parse response: " err)), w')
          | (emailResp, None) => (Returns (Some emailResp, None), w')
          end
      end.
Proof.
  intros Hv Hd. unfold SendEmailWithIdempotency. now rewrite Hv, Hd.
Qed.

(** The store after a send is the store before it, or the one [doRequest]
    left. *)
Lemma send_world (c : Client) (ctx : option bool)
    (req : option SendEmailRequest.t) (key : string) (w : World) :
  snd (SendEmailWithIdempotency std c ctx req key w) = w
  \/ snd (SendEmailWithIdempotency std c ctx req key w)
     = snd (doRequest std c ctx "POST" "/mails/send" req key w).
Proof.
  unfold SendEmailWithIdempotency.
  destruct (validateSendEmailRequest req); [left; reflexivity|]. right.
  destruct (doRequest std c ctx "POST" "/mails/send" req key w)
    as [[[[resp|] [err|]]|reason] w1]; try reflexivity.
  destruct (negb (StatusCode resp =? 200)); [reflexivity|].
  destruct (io_ReadAll (Body resp)) as [body [err|]]; [reflexivity|].
  destruct (json_Unmarshal_SendEmailResponse std body) as [v [err|]];
    reflexivity.
Qed.

(** The error of an unparsable 200 body is none of the others. *)
Lemma decoding_error_distinct (cause : error) :
  let d := Errorf_w "failed to parse response: " cause in
  (forall req, validateSendEmailRequest req <> Some d)
  /\ (forall c ctx method path body key w w' resp,
        doRequest std c ctx method path body key w
        <> (Returns (resp, Some d), w'))
  /\ (forall resp, handleErrorResponse std resp <> d).
Proof.
  intros d. split; [|split].
  - intros req H. apply validate_errors in H as [s H]. discriminate.
  - intros c ctx method path body key w w' resp H.
    apply doRequest_errors in H as (_ & p & e & H & Hp).
    unfold d, Errorf_w in H. injection H as H ?.
    destruct Hp as [-> | [-> | ->]]; simpl in H; discriminate.
  - intros resp. unfold handleErrorResponse, d, Errorf_w.
    repeat break_match; discriminate.
Qed.

(** C5: in SendEmailWithIdempotency a response comes back only from a
    reply with status 200; a reply with any other status gives the error of
    handleErrorResponse and no response; and a 200 reply whose body does
    not parse gives the error "failed to parse response: ...", which no
    validation, no doRequest failure and no handleErrorResponse result
    equals. *)
Theorem C5_status_200_is_the_sole_success_path (c : Client) (ctx : option bool)
    (req : option SendEmailRequest.t) (key : string) (w : World) :
  let res := SendEmailWithIdempotency std c ctx req key w in
  let sent := doRequest std c ctx "POST" "/mails/send" req key w in
  (forall (r : SendEmailResponse.t) (e : option error) (w' : World),
     res = (Returns (Some r, e), w') ->
     e = None
     /\ exists resp : Response,
          sent = (Returns (Some resp, None), w') /\ StatusCode resp = 200)
  /\ (forall (resp : Response) (w' : World),
        validateSendEmailRequest req = None ->
        sent = (Returns (Some resp, None), w') ->
        StatusCode resp <> 200 ->
        res = (Returns (None, Some (handleErrorResponse std resp)), w'))
  /\ (forall (resp : Response) (w' : World) (body : string)
             (partial : SendEmailResponse.t) (cause : error),
        validateSendEmailRequest req = None ->
        sent = (Returns (Some resp, None), w') ->
        StatusCode resp = 200 ->
        io_ReadAll (Body resp) = (body, None) ->
        json_Unmarshal_SendEmailResponse std body = (partial, Some cause) ->
        let d := Errorf_w "failed to parse response: " cause in
        res = (Returns (None, Some d), w')
        /\ (forall req', validateSendEmailRequest req' <> Some d)
        /\ (forall c' ctx' method path body' key' w0 w1 resp',
              doRequest std c' ctx' method path body' key' w0
              <> (Returns (resp', Some d), w1))
        /\ (forall resp', handleErrorResponse std resp' <> d)).
Proof.
  intros res sent. split; [|split].
  - intros r e w' H. unfold res, SendEmailWithIdempotency in H.
    fold sent in H.
    destruct (validateSendEmailRequest req); [discriminate|].
    destruct sent as [[[[resp|] [err|]]|reason] w1]; try discriminate.
    destruct (negb (StatusCode resp =? 200)) eqn:Hs; [discriminate|].
    apply negb_false_iff, Z.eqb_eq in Hs.
    destruct (io_ReadAll (Body resp)) as [body [err|]]; [discriminate|].
    destruct (json_Unmarshal_SendEmailResponse std body) as [v [err|]];
      [discriminate|].
    injection H as <- <- <-. eauto.
  - intros resp w' Hv Hd Hs. unfold res.
    rewrite (send_after_response _ _ _ _ _ _ _ Hv Hd).
    apply Z.eqb_neq in Hs. now rewrite Hs.
  - intros resp w' body partial cause Hv Hd Hs Hread Hparse d.
    split; [|apply decoding_error_distinct].
    unfold res. rewrite (send_after_response _ _ _ _ _ _ _ Hv Hd).
    apply Z.eqb_eq in Hs. now rewrite Hs, Hread, Hparse.
Qed.

(** C8: a call of doRequest leaves the wire as it was or adds exactly one
    request to it, and the request it adds carries the Idempotency-Key
    header exactly when the key given is not empty, then with that key as
    its value, while Authorization, Content-Type and User-Agent are always
    set.  The request SendEmail adds, passing the empty key, never has the
    header.  When the body encodes, the request can be built and the client
    holds an http.Client, the request is indeed added. *)
Theorem C8_idempotency_header_iff_key (c : Client) (ctx : option bool)
    (method path : string) (body : option SendEmailRequest.t) (key : string)
    (w : World) :
  let always_set (req : Request) :=
    ReqHeader req !! "Authorization" = Some ["Bearer " +:+ apiKey c]
    /\ ReqHeader req !! "Content-Type" = Some ["application/json"]
    /\ ReqHeader req !! "User-Agent" = Some ["autosend-go/1.0.0"] in
  (let w' := snd (doRequest std c ctx method path body key w) in
   wire w' = wire w
   \/ exists (l : loc) (req : Request),
        wire w' = (wire w ++ [(l, req)])%list
        /\ (is_Some (ReqHeader req !! "Idempotency-Key") <-> key <> "")
        /\ (key <> "" -> ReqHeader req !! "Idempotency-Key" = Some [key])
        /\ always_set req)
  /\ (let w' := snd (SendEmail std c ctx body w) in
      wire w' = wire w
      \/ exists (l : loc) (req : Request),
           wire w' = (wire w ++ [(l, req)])%list
           /\ ReqHeader req !! "Idempotency-Key" = None
           /\ always_set req)
  /\ (forall (b : bool) (r : SendEmailRequest.t) (jsonBody : string)
             (l : loc) (h : http.Client),
        ctx = Some b ->
        body = Some r ->
        json_Marshal std r = (jsonBody, None) ->
        validMethod method = true ->
        url_Parse std (baseURL c +:+ path) = None ->
        httpClient c = Some l ->
        clients w !! l = Some h ->
        exists req : Request,
          wire (snd (doRequest std c ctx method path body key w))
          = (wire w ++ [(l, req)])%list
          /\ (is_Some (ReqHeader req !! "Idempotency-Key") <-> key <> "")
          /\ always_set req).
Proof.
  intros always_set.
  assert (Hkey : forall k : string,
            (is_Some (outbound_headers c k !! "Idempotency-Key") <-> k <> "")
            /\ (k <> "" -> outbound_headers c k !! "Idempotency-Key" = Some [k])).
  { intros k. destruct (outbound_headers_lookup c k) as (Hk & _).
    rewrite Hk. destruct k; cbn [is_empty]; split; try congruence.
    - split; [intros [x Hx]; discriminate | congruence].
    - split; [discriminate | eauto]. }
  assert (Hset : forall (k : string) (req : Request),
            ReqHeader req = outbound_headers c k -> always_set req).
  { intros k req Hh. unfold always_set. rewrite Hh.
    destruct (outbound_headers_lookup c k) as (_ & Ha & Hc & Hu). auto. }
  assert (Hsent : forall (k m p : string),
            let w' := snd (doRequest std c ctx m p body k w) in
            wire w' = wire w
            \/ exists (l : loc) (req : Request),
                 wire w' = (wire w ++ [(l, req)])%list
                 /\ ReqHeader req = outbound_headers c k).
  { intros k m p.
    destruct (doRequest_wire c ctx m p body k w)
      as (_ & [Hw | (l0 & req0 & _ & Hw & _ & Hh)]); [now left|].
    right. exists l0, req0. auto. }
  split; [|split].
  - destruct (Hsent key method path) as [Hw | (l & req & Hw & Hh)];
      [now left|].
    right. exists l, req. destruct (Hkey key) as [Hiff Hval].
    rewrite Hh. repeat split; try apply Hiff; auto.
    all: apply (Hset key req Hh).
  - cbv zeta. unfold SendEmail.
    destruct (send_world c ctx body "" w) as [-> | ->]; [now left|].
    destruct (Hsent "" "POST" "/mails/send") as [Hw | (l & req & Hw & Hh)];
      [now left|].
    right. exists l, req. split; [exact Hw|]. split; [|apply (Hset "" req Hh)].
    rewrite Hh. now destruct (outbound_headers_lookup c "") as (Hk & _).
  - intros b r jsonBody l h -> -> Hm Hv Hu Hc Hl.
    eexists. split; [apply (doRequest_dispatches c b method path r jsonBody
                              key w l h Hm Hv Hu Hc Hl)|].
    cbn [ReqHeader]. split; [apply Hkey | now apply (Hset key)].
Qed.

(** C9: a reply with status 200 whose body decodes into SendEmailResponse
    is returned as decoded, with no error, whatever its Success and Message
    fields hold. *)
Theorem C9_decoded_200_body_is_returned (c : Client) (ctx : option bool)
    (req : option SendEmailRequest.t) (key : string) (w w' : World)
    (resp : Response) (body : string) (v : SendEmailResponse.t) :
  validateSendEmailRequest req = None ->
  doRequest std c ctx "POST" "/mails/send" req key w
    = (Returns (Some resp, None), w') ->
  StatusCode resp = 200 ->
  io_ReadAll (Body resp) = (body, None) ->
  json_Unmarshal_SendEmailResponse std body = (v, None) ->
  SendEmailWithIdempotency std c ctx req key w = (Returns (Some v, None), w').
Proof.
  intros Hv Hd Hs Hread Hparse.
  rewrite (send_after_response _ _ _ _ _ _ _ Hv Hd).
  apply Z.eqb_eq in Hs. now rewrite Hs, Hread, Hparse.
Qed.

End RequestFacts.

(** A 500 with a JSON body is classified; a 200 with an HTML body is a
    decoding error. *)
Lemma C5_sole_success_witness :
  let bad := Sample.response 500 ∅ (decode.q "{'message':'boom'}") in
  let odd := Sample.response 200 ∅ Sample.html_page in
  fst (SendEmailWithIdempotency (Sample.std (Sample.answer bad)) Sample.client
         (Some false) (Some Sample.request) "k1" (Sample.world (Sample.answer bad)))
  = Returns (None, Some (handleErrorResponse (Sample.std (Sample.answer bad)) bad))
  /\ fst (SendEmailWithIdempotency (Sample.std (Sample.answer odd)) Sample.client
            (Some false) (Some Sample.request) "k1"
            (Sample.world (Sample.answer odd)))
     = Returns (None, Some (Errorf_w "failed to parse response: "
                              (libError "encoding/json" "json: invalid JSON text"))).
Proof.
  intros bad odd. split.
  - pose proof (proj1 (proj2 (C5_status_200_is_the_sole_success_path
                  (Sample.std (Sample.answer bad)) Sample.client (Some false)
                  (Some Sample.request) "k1" (Sample.world (Sample.answer bad))))
                  bad
                  (snd (doRequest (Sample.std (Sample.answer bad)) Sample.client
                          (Some false) "POST" "/mails/send" (Some Sample.request)
                          "k1" (Sample.world (Sample.answer bad))))
                  eq_refl) as H.
    rewrite H; [reflexivity | vm_compute; reflexivity | discriminate].
  - pose proof (proj2 (proj2 (C5_status_200_is_the_sole_success_path
                  (Sample.std (Sample.answer odd)) Sample.client (Some false)
                  (Some Sample.request) "k1" (Sample.world (Sample.answer odd))))
                  odd
                  (snd (doRequest (Sample.std (Sample.answer odd)) Sample.client
                          (Some false) "POST" "/mails/send" (Some Sample.request)
                          "k1" (Sample.world (Sample.answer odd))))
                  Sample.html_page SendEmailResponse.zero
                  (libError "encoding/json" "json: invalid JSON text")
                  eq_refl) as H.
    destruct H as [H _];
      [vm_compute; reflexivity | reflexivity | reflexivity
      | vm_compute; reflexivity |].
    rewrite H. reflexivity.
Defined.

(** One send with a key and one without, through a transport that answers:
    the request added to the wire has the header in the first case and
    lacks it in the second. *)
Lemma C8_idempotency_header_witness :
  let t := Sample.answer (Sample.response 200 ∅ "{}") in
  let std := Sample.std t in
  (exists req : Request,
     wire (snd (doRequest std Sample.client (Some false) "POST" "/mails/send"
                  (Some Sample.request) "k1" (Sample.world t)))
     = [(1%positive, req)]
     /\ (is_Some (ReqHeader req !! "Idempotency-Key") <-> "k1" <> "")
     /\ ReqHeader req !! "Authorization" = Some ["Bearer key"])
  /\ (exists req : Request,
        wire (snd (SendEmail std Sample.client (Some false)
                     (Some Sample.request) (Sample.world t)))
        = [(1%positive, req)]
        /\ ReqHeader req !! "Idempotency-Key" = None
        /\ ReqHeader req !! "User-Agent" = Some ["autosend-go/1.0.0"]).
Proof.
  intros t std.
  destruct (C8_idempotency_header_iff_key std Sample.client (Some false)
              "POST" "/mails/send" (Some Sample.request) "k1" (Sample.world t))
    as (_ & Hnone & Hsend).
  split.
  - destruct (Hsend false Sample.request (fst (Sample.marshal Sample.request))
                1%positive (http.mkClient DefaultTimeout t)
                eq_refl eq_refl eq_refl eq_refl)
      as (req & Hw & Hiff & Ha & _);
      [vm_compute; reflexivity | reflexivity | apply lookup_singleton_eq |].
    exists req. split; [exact Hw|]. split; [exact Hiff | exact Ha].
  - cbv zeta in Hnone. destruct Hnone as [Hw | (l & req & Hw & Hk & _ & _ & Hu)].
    + exfalso.
      assert (Hlen : List.length
                       (wire (snd (SendEmail std Sample.client (Some false)
                                     (Some Sample.request) (Sample.world t))))
                     = 1%nat) by (vm_compute; reflexivity).
      rewrite Hw in Hlen. discriminate Hlen.
    + assert (Hl : fst <$> wire (snd (SendEmail std Sample.client (Some false)
                                     (Some Sample.request) (Sample.world t)))
                   = [1%positive]) by (vm_compute; reflexivity).
      rewrite Hw in Hl. injection Hl as <-.
      exists req. split; [exact Hw|]. split; [exact Hk | exact Hu].
Defined.

(** An empty object and a body that says success is false: both come back
    as responses, without an error. *)
Lemma C9_decoded_200_witness :
  let empty := Sample.response 200 ∅ "{}" in
  let failed := Sample.response 200 ∅ (decode.q "{'success':false,'message':'no'}") in
  fst (SendEmailWithIdempotency (Sample.std (Sample.answer empty)) Sample.client
         (Some false) (Some Sample.request) "" (Sample.world (Sample.answer empty)))
  = Returns (Some SendEmailResponse.zero, None)
  /\ fst (SendEmailWithIdempotency (Sample.std (Sample.answer failed)) Sample.client
            (Some false) (Some Sample.request) ""
            (Sample.world (Sample.answer failed)))
     = Returns (Some (SendEmailResponse.mk false "no" ResponseData.zero), None).
Proof.
  intros empty failed. split.
  - rewrite (C9_decoded_200_body_is_returned
               (Sample.std (Sample.answer empty)) Sample.client (Some false)
               (Some Sample.request) "" (Sample.world (Sample.answer empty))
               (snd (doRequest (Sample.std (Sample.answer empty)) Sample.client
                       (Some false) "POST" "/mails/send" (Some Sample.request)
                       "" (Sample.world (Sample.answer empty))))
               empty "{}" SendEmailResponse.zero);
      [reflexivity | reflexivity | vm_compute; reflexivity | reflexivity
      | reflexivity | vm_compute; reflexivity].
  - rewrite (C9_decoded_200_body_is_returned
               (Sample.std (Sample.answer failed)) Sample.client (Some false)
               (Some Sample.request) "" (Sample.world (Sample.answer failed))
               (snd (doRequest (Sample.std (Sample.answer failed)) Sample.client
                       (Some false) "POST" "/mails/send" (Some Sample.request)
                       "" (Sample.world (Sample.answer failed))))
               failed (decode.q "{'success':false,'message':'no'}")
               (SendEmailResponse.mk false "no" ResponseData.zero));
      [reflexivity | reflexivity | vm_compute; reflexivity | reflexivity
      | reflexivity | vm_compute; reflexivity].
Defined.

(** ** The functional options *)

Section OptionFacts.

Variable std : Stdlib.

(** C10: WithTimeout writes the timeout into the http.Client the client
    under construction points to, in the store, and changes nothing else:
    the client value (API key, base URL, the pointer itself), every other
    http.Client, the set of allocated clients and the wire are as before.
    So NewClientWithOptions with WithHTTPClient(hc) followed by WithTimeout
    sets the timeout of the caller's hc in place; the only client allocated
    is the default one made before the options run, and it keeps the
    default timeout. *)
Theorem C10_with_timeout_writes_in_place (timeout : time.Duration)
    (c : Client) (w : World) (l : loc) (h : http.Client) :
  httpClient c = Some l ->
  clients w !! l = Some h ->
  let w' := snd (WithTimeout timeout c w) in
  fst (WithTimeout timeout c w) = Returns c
  /\ clients w' !! l = Some (http.mkClient timeout (Transport h))
  /\ (forall l' : loc, l' <> l -> clients w' !! l' = clients w !! l')
  /\ dom (clients w') = dom (clients w)
  /\ wire w' = wire w
  /\ (forall key : string,
        let r := NewClientWithOptions std key
                   [WithHTTPClient (Some l); WithTimeout timeout] w in
        let l0 := fresh (dom (clients w)) in
        fst r = Returns (mkClient key DefaultBaseURL (Some l))
        /\ clients (snd r) !! l = Some (http.mkClient timeout (Transport h))
        /\ clients (snd r) !! l0
           = Some (http.mkClient DefaultTimeout (DefaultTransport std))
        /\ dom (clients (snd r)) = dom (clients w) ∪ {[ l0 ]}
        /\ wire (snd r) = wire w).
Proof.
  intros Hc Hl w'.
  assert (HW : WithTimeout timeout c w
               = (Returns c,
                  mkWorld (<[l := http.mkClient timeout (Transport h)]> (clients w))
                          (wire w)))
    by (unfold WithTimeout; now rewrite Hc, Hl).
  subst w'. rewrite HW. cbn [fst snd clients wire].
  split; [reflexivity|]. split; [apply lookup_insert_eq|].
  split; [intros l' Hne; now apply lookup_insert_ne|].
  split.
  { rewrite dom_insert_L. pose proof (elem_of_dom_2 _ _ _ Hl) as Hdom. set_solver. }
  split; [reflexivity|].
  intros key.
  set (l0 := fresh (dom (clients w))).
  set (r := NewClientWithOptions std key _ w).
  assert (Hne : l0 <> l).
  { intros Heq. apply elem_of_dom_2 in Hl. rewrite <- Heq in Hl.
    now apply is_fresh in Hl. }
  assert (Hr : r = (Returns (mkClient key DefaultBaseURL (Some l)),
                    mkWorld (<[l := http.mkClient timeout (Transport h)]>
                               (<[l0 := http.mkClient DefaultTimeout
                                          (DefaultTransport std)]> (clients w)))
                            (wire w))).
  { subst r. unfold NewClientWithOptions, alloc. fold l0.
    cbn [apply_opts WithHTTPClient apiKey baseURL httpClient].
    unfold WithTimeout. cbn [httpClient clients wire].
    rewrite lookup_insert_ne by exact Hne. rewrite Hl. reflexivity. }
  rewrite Hr. cbn [fst snd clients wire].
  split; [reflexivity|]. split; [apply lookup_insert_eq|].
  split; [rewrite lookup_insert_ne by (intros Heq; now apply Hne);
          apply lookup_insert_eq|].
  split; [|reflexivity].
  rewrite !dom_insert_L. pose proof (elem_of_dom_2 _ _ _ Hl) as Hdom. set_solver.
Qed.

End OptionFacts.

(** On a client whose pointer is [nil], as WithHTTPClient(nil) leaves it,
    WithTimeout dereferences [nil]. *)
Lemma WithTimeout_nil_panics (timeout : time.Duration) (c : Client) (w : World) :
  httpClient c = None ->
  WithTimeout timeout c w = (Panics "nil pointer dereference", w).
Proof. intros H. unfold WithTimeout. now rewrite H. Qed.

(** The caller's client at location 1 has a 5 s timeout; after
    NewClientWithOptions(key, WithHTTPClient(hc), WithTimeout(60 s)) the
    same location holds 60 s. *)
Lemma C10_with_timeout_witness :
  let std := Sample.std Sample.refuse in
  let hc : loc := 1%positive in
  let mine := http.mkClient (5 * time.Second) (Sample.answer (Sample.response 200 ∅ "{}")) in
  let w := mkWorld {[ hc := mine ]} [] in
  let r := NewClientWithOptions std "key"
             [WithHTTPClient (Some hc); WithTimeout (60 * time.Second)] w in
  fst r = Returns (mkClient "key" DefaultBaseURL (Some hc))
  /\ http.Timeout <$> (clients (snd r) !! hc) = Some (60 * time.Second)
  /\ http.Timeout <$> (clients w !! hc) = Some (5 * time.Second).
Proof.
  intros std hc mine w r.
  destruct (C10_with_timeout_writes_in_place std (60 * time.Second)
              (mkClient "key" DefaultBaseURL (Some hc)) w hc mine
              eq_refl (lookup_singleton_eq hc mine))
    as (_ & _ & _ & _ & _ & Hnew).
  destruct (Hnew "key") as (Hc & Hl & _).
  split; [exact Hc|]. split; [|vm_compute; reflexivity].
  unfold r. rewrite Hl. reflexivity.
Defined.

(** * Further properties of the package *)

(** ** Building a client *)

Section ConstructionFacts.

Variable std : Stdlib.

Lemma apply_opts_app (o1 o2 : list ClientOption) (c : Client) (w : World) :
  apply_opts (o1 ++ o2) c w
  = match apply_opts o1 c w with
    | (Returns c', w') => apply_opts o2 c' w'
    | (Panics r, w') => (Panics r, w')
    end.
Proof.
  revert c w. induction o1 as [|o o1 IH]; intros c w; simpl.
  - now destruct (apply_opts o2 c w) as [[c'|r] w'].
  - destruct (o c w) as [[c'|r] w']; [apply IH | reflexivity].
Qed.

(** X1: the three constructors agree on the defaults: NewClient(key),
    NewClientWithConfig with only the API key set, with the default base
    URL and timeout spelled out, and NewClientWithOptions without options
    all build the same client in the same store. *)
Theorem X1_construction_modes_agree (key : string) (w : World) :
  NewClientWithConfig std (mkConfig key "" None 0) w = NewClient std key w
  /\ NewClientWithConfig std (mkConfig key DefaultBaseURL None DefaultTimeout) w
     = NewClient std key w
  /\ NewClientWithOptions std key [] w
     = (Returns (fst (NewClient std key w)), snd (NewClient std key w))
  /\ NewClientWithOptions std key
       [WithBaseURL DefaultBaseURL; WithTimeout DefaultTimeout] w
     = (Returns (fst (NewClient std key w)), snd (NewClient std key w)).
Proof.
  unfold NewClientWithConfig, NewClient, NewClientWithOptions, alloc.
  cbn [HTTPClient Timeout BaseURL APIKey apply_opts].
  repeat split.
  unfold WithBaseURL, WithTimeout.
  cbn [apiKey baseURL httpClient clients wire fst snd].
  rewrite lookup_insert_eq. cbn [Transport].
  now rewrite insert_insert_eq.
Qed.

(** X2: an option that comes last wins.  Whatever options ran before, a
    final WithBaseURL sets the base URL and a final WithHTTPClient sets the
    pointer, and neither changes anything else the earlier options built. *)
Theorem X2_last_option_wins (key : string) (opts : list ClientOption)
    (w w' : World) (c' : Client) (u0 u : string) (hc : option loc) :
  NewClientWithOptions std key opts w = (Returns c', w') ->
  NewClientWithOptions std key (opts ++ [WithBaseURL u]) w
  = (Returns (mkClient (apiKey c') u (httpClient c')), w')
  /\ NewClientWithOptions std key (opts ++ [WithHTTPClient hc]) w
     = (Returns (mkClient (apiKey c') (baseURL c') hc), w')
  /\ NewClientWithOptions std key (opts ++ [WithBaseURL u0; WithBaseURL u]) w
     = (Returns (mkClient (apiKey c') u (httpClient c')), w').
Proof.
  unfold NewClientWithOptions. destruct (alloc _ w) as [l w0].
  intros H. rewrite !apply_opts_app, H. repeat split.
Qed.

(** X3: the order of WithTimeout and WithHTTPClient matters.  With
    WithTimeout first, the timeout is written into the default client made
    by the constructor; WithHTTPClient(hc) then replaces the pointer, so the
    client that is used keeps the timeout hc came with. *)
Theorem X3_timeout_before_client_is_lost (key : string)
    (timeout : time.Duration) (w : World) (hc : loc) (h : http.Client) :
  clients w !! hc = Some h ->
  let r := NewClientWithOptions std key
             [WithTimeout timeout; WithHTTPClient (Some hc)] w in
  let l0 := fresh (dom (clients w)) in
  fst r = Returns (mkClient key DefaultBaseURL (Some hc))
  /\ clients (snd r) !! hc = Some h
  /\ clients (snd r) !! l0
     = Some (http.mkClient timeout (DefaultTransport std))
  /\ wire (snd r) = wire w.
Proof.
  intros Hl.
  set (l0 := fresh (dom (clients w))).
  assert (Hne : l0 <> hc).
  { intros Heq. apply elem_of_dom_2 in Hl. rewrite <- Heq in Hl.
    now apply is_fresh in Hl. }
  unfold NewClientWithOptions, alloc. fold l0.
  cbn [apply_opts]. unfold WithTimeout.
  cbn [httpClient clients wire]. rewrite lookup_insert_eq.
  cbn [WithHTTPClient apply_opts fst snd clients wire apiKey baseURL Transport].
  split; [reflexivity|].
  split; [rewrite insert_insert_eq; now rewrite lookup_insert_ne|].
  split; [apply lookup_insert_eq | reflexivity].
Qed.

(** The options of the package keep a client usable as long as every
    pointer they install is allocated. *)
Lemma apply_opts_usable (os : list opt) (c : Client) (w0 : World) :
  (exists l, httpClient c = Some l /\ l ∈ dom (clients w0)) ->
  (forall p, In (OptHTTPClient p) os ->
             exists l, p = Some l /\ l ∈ dom (clients w0)) ->
  exists (c' : Client) (w' : World),
    apply_opts (map run_opt os) c w0 = (Returns c', w')
    /\ dom (clients w') = dom (clients w0)
    /\ (exists l, httpClient c' = Some l /\ l ∈ dom (clients w0))
    /\ apiKey c' = apiKey c
    /\ wire w' = wire w0.
Proof.
  revert c w0. induction os as [|o os IH]; intros c w0 Hc Hos.
  - exists c, w0. cbn [map apply_opts]. auto.
  - cbn [map apply_opts]. destruct o as [u | p | t]; cbn [run_opt].
    + unfold WithBaseURL.
      destruct (IH (mkClient (apiKey c) u (httpClient c)) w0)
        as (c' & w' & Hr & Hd & Hl & Hk & Hw); auto.
      { intros p Hp. apply Hos. now right. }
      exists c', w'. auto.
    + unfold WithHTTPClient.
      destruct (Hos p (or_introl eq_refl)) as (l & -> & Hl0).
      destruct (IH (mkClient (apiKey c) (baseURL c) (Some l)) w0)
        as (c' & w' & Hr & Hd & Hl & Hk & Hw); eauto.
      { intros p Hp. apply Hos. now right. }
      exists c', w'. auto.
    + unfold WithTimeout. destruct Hc as (l & Hl & Hin). rewrite Hl.
      destruct (proj1 (elem_of_dom _ _) Hin) as [h Hh]. rewrite Hh.
      set (w1 := mkWorld (<[l := http.mkClient t (Transport h)]> (clients w0))
                         (wire w0)).
      assert (Hd1 : dom (clients w1) = dom (clients w0)).
      { unfold w1. cbn [clients]. rewrite dom_insert_L. set_solver. }
      destruct (IH c w1) as (c' & w' & Hr & Hd & Hl' & Hk & Hw).
      { exists l. now rewrite Hd1. }
      { intros p Hp. rewrite Hd1. apply Hos. now right. }
      exists c', w'. rewrite Hd1 in Hd, Hl'. auto.
Qed.

(** X4: when the constructor with options panics and when it does not.
    If every pointer handed to WithHTTPClient leads to an http.Client, then
    whatever the order and number of WithBaseURL, WithHTTPClient and
    WithTimeout options, the constructor returns a usable client with the
    given API key, allocates its default http.Client and nothing else, and
    leaves the wire alone.  WithTimeout after WithHTTPClient(nil), however,
    dereferences nil and the constructor panics. *)
Theorem X4_options_and_panics (key : string) (os : list opt) (w : World) :
  ((forall p, In (OptHTTPClient p) os ->
              exists l h, p = Some l /\ clients w !! l = Some h) ->
   exists (c : Client) (w' : World),
     NewClientWithOptions std key (map run_opt os) w = (Returns c, w')
     /\ client_ok c w'
     /\ apiKey c = key
     /\ dom (clients w') = dom (clients w) ∪ {[ fresh (dom (clients w)) ]}
     /\ wire w' = wire w)
  /\ (forall (timeout : time.Duration) (rest : list opt),
        fst (NewClientWithOptions std key
               (map run_opt (OptHTTPClient None :: OptTimeout timeout :: rest)) w)
        = Panics "nil pointer dereference").
Proof.
  split; [|reflexivity].
  intros Hos. unfold NewClientWithOptions, alloc.
  set (l0 := fresh (dom (clients w))).
  set (w0 := mkWorld (<[l0 := http.mkClient DefaultTimeout (DefaultTransport std)]>
                        (clients w)) (wire w)).
  assert (Hd0 : dom (clients w0) = dom (clients w) ∪ {[ l0 ]}).
  { unfold w0. cbn [clients]. rewrite dom_insert_L. set_solver. }
  destruct (apply_opts_usable os (mkClient key DefaultBaseURL (Some l0)) w0)
    as (c & w' & Hr & Hd & (l & Hl & Hin) & Hk & Hw).
  { exists l0. split; [reflexivity|]. rewrite Hd0. set_solver. }
  { intros p Hp. destruct (Hos p Hp) as (l & h & -> & Hh).
    exists l. split; [reflexivity|]. rewrite Hd0.
    apply elem_of_dom_2 in Hh. set_solver. }
  exists c, w'. split; [exact Hr|]. split.
  - rewrite <- Hd in Hin. destruct (proj1 (elem_of_dom _ _) Hin) as [h Hh].
    exists l, h. auto.
  - split; [exact Hk|]. split; [now rewrite Hd, Hd0 | exact Hw].
Qed.

End ConstructionFacts.

(** ** One exchange *)

Section ExchangeFacts.

Variable std : Stdlib.

(** [doRequest] with everything in place: the request goes on the wire and
    the transport decides the result. *)
Lemma doRequest_run (c : Client) (ctx : bool) (method path : string)
    (r : SendEmailRequest.t) (jsonBody key : string) (w : World)
    (l : loc) (h : http.Client) :
  json_Marshal std r = (jsonBody, None) ->
  validMethod method = true ->
  url_Parse std (baseURL c +:+ path) = None ->
  httpClient c = Some l ->
  clients w !! l = Some h ->
  let sent := built_request c ctx method path (Some jsonBody) key in
  doRequest std c (Some ctx) method path (Some r) key w
  = (match Transport h sent with
     | inl resp => Returns (Some resp, None)
     | inr f =>
         Returns (None, Some (Errorf_w "request failed: " (url_Error std sent f)))
     end,
     mkWorld (clients w) (wire w ++ [(l, sent)])).
Proof.
  intros Hm Hv Hu Hc Hl sent. unfold doRequest, NewRequestWithContext.
  rewrite Hm, Hu.
  assert (Hne : is_empty method = false).
  { unfold validMethod in Hv. now destruct (is_empty method). }
  rewrite Hne, Hv. cbn [negb].
  unfold Do. rewrite Hc, Hl.
  assert (Hs : (if negb (is_empty key)
                then Header_Set_req
                       (Header_Set_req
                          (Header_Set_req
                             (Header_Set_req
                                (mkRequest method (baseURL c +:+ path) ∅
                                   (Some jsonBody) (Some ctx))
                                "Authorization" ("Bearer " +:+ apiKey c))
                             "Content-Type" "application/json")
                          "User-Agent" "autosend-go/1.0.0")
                       "Idempotency-Key" key
                else Header_Set_req
                       (Header_Set_req
                          (Header_Set_req
                             (mkRequest method (baseURL c +:+ path) ∅
                                (Some jsonBody) (Some ctx))
                             "Authorization" ("Bearer " +:+ apiKey c))
                          "Content-Type" "application/json")
                       "User-Agent" "autosend-go/1.0.0") = sent).
  { unfold sent, built_request, outbound_headers, Header_Set_req.
    destruct (negb (is_empty key)); reflexivity. }
  rewrite Hs. destruct (Transport h sent); reflexivity.
Qed.

(** [doRequest] hands back a response or an error, never both and never
    neither. *)
Lemma doRequest_one_of (c : Client) (ctx : option bool) (method path : string)
    (body : option SendEmailRequest.t) (key : string) (w w' : World)
    (resp : option Response) (err : option error) :
  doRequest std c ctx method path body key w = (Returns (resp, err), w') ->
  (is_Some resp /\ err = None) \/ (resp = None /\ is_Some err).
Proof.
  unfold doRequest.
  destruct (match body with
            | Some b => let (jsonBody, e) := json_Marshal std b in (Some jsonBody, e)
            | None => (None, None)
            end) as [bodyReader [e|]].
  { intros [= <- <- <-]. right. eauto. }
  destruct (NewRequestWithContext std ctx method (baseURL c +:+ path) bodyReader)
    as [[req|] [e|]]; try discriminate;
    try (intros [= <- <- <-]; right; eauto; fail).
  match goal with
  | |- context [Do std (httpClient c) ?r w] => generalize r; intros final
  end.
  unfold Do. destruct (httpClient c) as [l|]; [|discriminate].
  destruct (clients w !! l) as [h|]; [|discriminate].
  destruct (Transport h final) as [r|e]; intros [= <- <- <-]; eauto.
Qed.

(** [doRequest] panics only on a pointer that leads nowhere. *)
Lemma doRequest_returns (c : Client) (ctx : option bool) (method path : string)
    (body : option SendEmailRequest.t) (key : string) (w : World) :
  client_ok c w ->
  exists out w', doRequest std c ctx method path body key w = (Returns out, w').
Proof.
  intros (l & h & Hc & Hl). unfold doRequest.
  destruct (match body with
            | Some b => let (jsonBody, e) := json_Marshal std b in (Some jsonBody, e)
            | None => (None, None)
            end) as [bodyReader [e|]]; [eauto|].
  destruct (NewRequestWithContext std ctx method (baseURL c +:+ path) bodyReader)
    as [[req|] [e|]] eqn:Hreq; eauto.
  - match goal with
    | |- context [Do std (httpClient c) ?r w] => generalize r; intros final
    end.
    unfold Do. rewrite Hc, Hl. destruct (Transport h final); eauto.
  - unfold NewRequestWithContext in Hreq.
    destruct (negb (validMethod _)); [discriminate|].
    destruct ctx; [|discriminate].
    destruct (url_Parse std _); discriminate.
Qed.

(** X5: a client whose pointer leads to an http.Client never panics in
    SendEmailWithIdempotency, whatever the request, the context and the
    transport do; the call leaves every http.Client as it was, so the
    client stays usable. *)
Theorem X5_usable_client_never_panics (c : Client) (ctx : option bool)
    (req : option SendEmailRequest.t) (key : string) (w : World) :
  client_ok c w ->
  exists (out : option SendEmailResponse.t * option error) (w' : World),
    SendEmailWithIdempotency std c ctx req key w = (Returns out, w')
    /\ clients w' = clients w
    /\ client_ok c w'.
Proof.
  intros Hok.
  assert (Hframe : clients (snd (SendEmailWithIdempotency std c ctx req key w))
                   = clients w).
  { destruct (send_world std c ctx req key w) as [-> | ->]; [reflexivity|].
    apply doRequest_wire. }
  assert (Hret : exists out w',
             SendEmailWithIdempotency std c ctx req key w = (Returns out, w')).
  { unfold SendEmailWithIdempotency.
    destruct (validateSendEmailRequest req); [eauto|].
    destruct (doRequest_returns c ctx "POST" "/mails/send" req key w Hok)
      as ([resp err] & w1 & Hd).
    pose proof (doRequest_one_of _ _ _ _ _ _ _ _ _ _ Hd) as Hone.
    rewrite Hd.
    destruct Hone as [[[r ->] ->] | [-> [e ->]]]; [|eauto].
    destruct (negb (StatusCode r =? 200)); [eauto|].
    destruct (io_ReadAll (Body r)) as [b [e|]]; [eauto|].
    destruct (json_Unmarshal_SendEmailResponse std b) as [v [e|]]; eauto. }
  destruct Hret as (out & w' & Hs). exists out, w'.
  rewrite Hs in Hframe. cbn [snd] in Hframe.
  split; [exact Hs|]. split; [exact Hframe|].
  destruct Hok as (l & h & Hc & Hl). exists l, h. now rewrite Hframe.
Qed.

(** X6: the constructors build usable clients.  NewClient always does;
    NewClientWithConfig does when HTTPClient is nil or leads to an
    http.Client.  Neither touches an http.Client that existed before, nor
    the wire. *)
Theorem X6_constructors_build_usable_clients (key : string) (config : Config)
    (w : World) :
  (let r := NewClient std key w in
   client_ok (fst r) (snd r)
   /\ (forall l h, clients w !! l = Some h -> clients (snd r) !! l = Some h)
   /\ wire (snd r) = wire w)
  /\ (HTTPClient config = None
      \/ (exists l h, HTTPClient config = Some l /\ clients w !! l = Some h) ->
      let r := NewClientWithConfig std config w in
      client_ok (fst r) (snd r)
      /\ (forall l h, clients w !! l = Some h -> clients (snd r) !! l = Some h)
      /\ wire (snd r) = wire w).
Proof.
  assert (Halloc : forall h0 : http.Client,
            let r := alloc h0 w in
            clients (snd r) !! fst r = Some h0
            /\ (forall l h, clients w !! l = Some h -> clients (snd r) !! l = Some h)
            /\ wire (snd r) = wire w).
  { intros h0. destruct (alloc_fresh h0 w) as (Hf & Hc & Hw).
    cbv zeta. rewrite Hc. split; [apply lookup_insert_eq|]. split; [|exact Hw].
    intros l h Hl. rewrite lookup_insert_ne; [exact Hl|].
    intros Heq. rewrite Heq in Hf. congruence. }
  split.
  - unfold NewClient.
    specialize (Halloc (http.mkClient DefaultTimeout (DefaultTransport std))).
    destruct (alloc _ w) as [l0 w0]. cbn [fst snd] in *.
    destruct Halloc as (H0 & Hkeep & Hw). split; [|auto].
    exists l0, (http.mkClient DefaultTimeout (DefaultTransport std)). auto.
  - intros Hcfg. unfold NewClientWithConfig.
    destruct Hcfg as [-> | (l & h & -> & Hl)].
    + specialize (Halloc (http.mkClient
                            (if Timeout config =? 0 then DefaultTimeout
                             else Timeout config) (DefaultTransport std))).
      destruct (alloc _ w) as [l0 w0]. cbn [fst snd] in *.
      destruct Halloc as (H0 & Hkeep & Hw). split; [|auto].
      eexists l0, _. split; [reflexivity | exact H0].
    + cbn [fst snd]. split; [|auto]. exists l, h. auto.
Qed.

(** X7: a valid request sent through a client whose pointer is nil (as
    WithHTTPClient(nil) leaves it) panics at the moment of dispatch, after
    the body was encoded and the request built; nothing reaches the wire. *)
Theorem X7_nil_client_panics_at_dispatch (c : Client) (ctx : bool)
    (r : SendEmailRequest.t) (jsonBody key : string) (w : World) :
  validateSendEmailRequest (Some r) = None ->
  json_Marshal std r = (jsonBody, None) ->
  url_Parse std (baseURL c +:+ "/mails/send") = None ->
  httpClient c = None ->
  SendEmailWithIdempotency std c (Some ctx) (Some r) key w
  = (Panics "nil pointer dereference", w)
  /\ SendEmail std c (Some ctx) (Some r) w = (Panics "nil pointer dereference", w).
Proof.
  intros Hv Hm Hu Hc.
  assert (Hd : forall k, doRequest std c (Some ctx) "POST" "/mails/send" (Some r) k w
                         = (Panics "nil pointer dereference", w)).
  { intros k. unfold doRequest, NewRequestWithContext. rewrite Hm, Hu.
    change (is_empty "POST") with false.
    change (negb (validMethod "POST")) with false. cbv iota.
    unfold Do. now rewrite Hc. }
  unfold SendEmail, SendEmailWithIdempotency. rewrite Hv, !Hd. split; reflexivity.
Qed.

(** A send hands back a response or an error, never both and never
    neither. *)
Lemma send_one_of (c : Client) (ctx : option bool)
    (req : option SendEmailRequest.t) (key : string) (w w' : World)
    (resp : option SendEmailResponse.t) (err : option error) :
  SendEmailWithIdempotency std c ctx req key w = (Returns (resp, err), w') ->
  (is_Some resp /\ err = None) \/ (resp = None /\ is_Some err).
Proof.
  unfold SendEmailWithIdempotency.
  destruct (validateSendEmailRequest req); [intros [= <- <- <-]; right; eauto|].
  destruct (doRequest std c ctx "POST" "/mails/send" req key w)
    as [[[[r|] [e|]]|reason] w1] eqn:Hd; try discriminate;
    try (intros [= <- <- <-]; right; eauto; fail).
  destruct (negb (StatusCode r =? 200)); [intros [= <- <- <-]; right; eauto|].
  destruct (io_ReadAll (Body r)) as [b [e|]]; [intros [= <- <- <-]; right; eauto|].
  destruct (json_Unmarshal_SendEmailResponse std b) as [v [e|]];
    intros [= <- <- <-]; eauto.
Qed.

(** X8: when SendEmailWithIdempotency returns, exactly one of the response
    and the error is nil. *)
Theorem X8_response_xor_error (c : Client) (ctx : option bool)
    (req : option SendEmailRequest.t) (key : string) (w w' : World)
    (resp : option SendEmailResponse.t) (err : option error) :
  SendEmailWithIdempotency std c ctx req key w = (Returns (resp, err), w') ->
  (is_Some resp /\ err = None) \/ (resp = None /\ is_Some err).
Proof. apply send_one_of. Qed.

(** What a send does to the store. *)
Lemma send_wire_shape (c : Client) (ctx : option bool)
    (req : option SendEmailRequest.t) (key : string) (w : World) :
  let w' := snd (SendEmailWithIdempotency std c ctx req key w) in
  clients w' = clients w
  /\ (wire w' = wire w
      \/ exists (l : loc) (b : bool) (r : SendEmailRequest.t) (jsonBody : string),
           req = Some r /\ ctx = Some b /\ httpClient c = Some l
           /\ json_Marshal std r = (jsonBody, None)
           /\ wire w'
              = (wire w ++ [(l, built_request c b "POST" "/mails/send"
                                  (Some jsonBody) key)])%list).
Proof.
  cbv zeta.
  destruct (send_world std c ctx req key w) as [-> | Hw]; [auto|].
  rewrite Hw. split; [apply doRequest_wire|].
  destruct (validateSendEmailRequest req) eqn:Hv.
  { left. unfold SendEmailWithIdempotency in Hw. rewrite Hv in Hw.
    cbn [snd] in Hw. now rewrite <- Hw. }
  clear Hw.
  destruct req as [r|]; [|discriminate].
  assert (Hpost : validMethod "POST" = true) by reflexivity.
  destruct (json_Marshal std r) as [jsonBody [e|]] eqn:Hm.
  { left. unfold doRequest. now rewrite Hm. }
  destruct ctx as [b|].
  2:{ left. unfold doRequest, NewRequestWithContext. rewrite Hm.
      change (is_empty "POST") with false. cbv iota. now rewrite Hpost. }
  destruct (url_Parse std (baseURL c +:+ "/mails/send")) eqn:Hu.
  { left. unfold doRequest, NewRequestWithContext. rewrite Hm, Hu.
    change (is_empty "POST") with false. cbv iota. now rewrite Hpost. }
  destruct (httpClient c) as [l|] eqn:Hc.
  2:{ left. unfold doRequest, NewRequestWithContext, Do. rewrite Hm, Hu, Hc.
      change (is_empty "POST") with false. cbv iota. now rewrite Hpost. }
  destruct (clients w !! l) as [h|] eqn:Hl.
  2:{ left. unfold doRequest, NewRequestWithContext, Do. rewrite Hm, Hu, Hc, Hl.
      change (is_empty "POST") with false. cbv iota. now rewrite Hpost. }
  right. exists l, b, r, jsonBody.
  rewrite (doRequest_run c b "POST" "/mails/send" r jsonBody key w l h
             Hm Hpost Hu Hc Hl).
  repeat split; auto.
Qed.

(** X9: one call puts at most one request on the wire and never rewrites
    what was there; the request, if any, is a POST to the base URL followed
    by /mails/send, carrying the encoded request as its body and going
    through the client's own http.Client.  No http.Client is changed. *)
Theorem X9_at_most_one_post (c : Client) (ctx : option bool)
    (req : option SendEmailRequest.t) (key : string) (w : World) :
  let w' := snd (SendEmailWithIdempotency std c ctx req key w) in
  clients w' = clients w
  /\ (wire w' = wire w
      \/ exists (l : loc) (b : bool) (r : SendEmailRequest.t) (jsonBody : string),
           req = Some r /\ ctx = Some b /\ httpClient c = Some l
           /\ json_Marshal std r = (jsonBody, None)
           /\ wire w'
              = (wire w ++ [(l, built_request c b "POST" "/mails/send"
                                  (Some jsonBody) key)])%list).
Proof. apply send_wire_shape. Qed.

(** X10: the failures that come before the network.  For a request that
    passes validation: if the body cannot be encoded, if the context is nil,
    or if the URL made of the base URL and /mails/send does not parse, the
    call returns an error wrapping the cause under its own prefix, and the
    store and the wire are exactly as before. *)
Theorem X10_failures_before_the_network (c : Client) (r : SendEmailRequest.t)
    (key : string) (w : World) :
  validateSendEmailRequest (Some r) = None ->
  (forall (ctx : option bool) (partial : string) (e : error),
     json_Marshal std r = (partial, Some e) ->
     SendEmailWithIdempotency std c ctx (Some r) key w
     = (Returns (None, Some (wrapError
                               ("failed to marshal request body: " +:+ Error e) e)),
        w))
  /\ (forall jsonBody : string,
        json_Marshal std r = (jsonBody, None) ->
        SendEmailWithIdempotency std c None (Some r) key w
        = (Returns (None,
                    Some (wrapError
                            "failed to create request: net/http: nil Context"
                            (errorString "net/http: nil Context"))), w))
  /\ (forall (b : bool) (jsonBody : string) (e : error),
        json_Marshal std r = (jsonBody, None) ->
        url_Parse std (baseURL c +:+ "/mails/send") = Some e ->
        SendEmailWithIdempotency std c (Some b) (Some r) key w
        = (Returns (None, Some (wrapError
                                  ("failed to create request: " +:+ Error e) e)),
           w)).
Proof.
  intros Hv. unfold SendEmailWithIdempotency. rewrite Hv.
  unfold doRequest, NewRequestWithContext.
  change (is_empty "POST") with false. cbv iota.
  change (negb (validMethod "POST")) with false. cbv iota.
  split; [|split].
  - intros ctx partial e Hm. now rewrite Hm.
  - intros jsonBody Hm. now rewrite Hm.
  - intros b jsonBody e Hm Hu. now rewrite Hm, Hu.
Qed.

(** X11: when the exchange fails, Do hands the failure back inside a
    *url.Error, and the call returns no response and an error that wraps
    that *url.Error under the prefix "request failed: "; its text is
    "request failed: Post ", the quoted URL of the request in flight (the
    base URL followed by /mails/send when no redirect was followed), a colon
    and the text of the cause.  Exactly one request was handed to the
    client, and [errors.As] looks through both wrappers. *)
Theorem X11_transport_failure_is_wrapped (c : Client) (b : bool)
    (r : SendEmailRequest.t) (jsonBody key : string) (w : World)
    (l : loc) (h : http.Client) (u : string) (cause : error) :
  validateSendEmailRequest (Some r) = None ->
  json_Marshal std r = (jsonBody, None) ->
  url_Parse std (baseURL c +:+ "/mails/send") = None ->
  httpClient c = Some l ->
  clients w !! l = Some h ->
  let sent := built_request c b "POST" "/mails/send" (Some jsonBody) key in
  Transport h sent = inr (mkFailure u cause) ->
  let failure :=
    urlError ("Post " +:+ url_Error_URL std u +:+ ": " +:+ Error cause) cause in
  let err := wrapError ("request failed: " +:+ Error failure) failure in
  SendEmailWithIdempotency std c (Some b) (Some r) key w
  = (Returns (None, Some err), mkWorld (clients w) (wire w ++ [(l, sent)]))
  /\ Error err
     = "request failed: Post " +:+ url_Error_URL std u +:+ ": " +:+ Error cause
  /\ As_APIError err = As_APIError cause
  /\ URL sent = baseURL c +:+ "/mails/send".
Proof.
  intros Hv Hm Hu Hc Hl sent Ht failure err.
  unfold SendEmailWithIdempotency. rewrite Hv.
  rewrite (doRequest_run c b "POST" "/mails/send" r jsonBody key w l h
             Hm eq_refl Hu Hc Hl).
  fold sent. rewrite Ht. repeat split.
Qed.

(** X12: from the transport's answer to the predicates.  When the transport
    answers with a status other than 200 and a body that parses as
    ErrorResponse, the call returns an APIError that [errors.As] finds,
    with the status code of the answer, the message, field errors and
    retryAfter of the body, and the rate-limit headers of the answer; its
    predicates are decided by the status of the answer, and GetRetryAfter
    is the body's retryAfter for a 429 and 0 for every other status. *)
Theorem X12_answer_to_classified_error (c : Client) (b : bool)
    (r : SendEmailRequest.t) (jsonBody key : string) (w : World)
    (l : loc) (h : http.Client) (resp : Response) (body : string)
    (errResp : ErrorResponse.t) :
  validateSendEmailRequest (Some r) = None ->
  json_Marshal std r = (jsonBody, None) ->
  url_Parse std (baseURL c +:+ "/mails/send") = None ->
  httpClient c = Some l ->
  clients w !! l = Some h ->
  Transport h (built_request c b "POST" "/mails/send" (Some jsonBody) key)
  = inl resp ->
  StatusCode resp <> 200 ->
  io_ReadAll (Body resp) = (body, None) ->
  json_Unmarshal_ErrorResponse std body = (errResp, None) ->
  exists (err : error) (a : APIError.t),
    fst (SendEmailWithIdempotency std c (Some b) (Some r) key w)
    = Returns (None, Some err)
    /\ As_APIError err = Some a
    /\ a = APIError.mk (StatusCode resp) (ErrorResponse.Message errResp)
             (ErrorResponse.Errors errResp) (ErrorResponse.RetryAfter errResp)
             (Some (parseRateLimitHeaders (RespHeader resp)))
    /\ (APIError.IsRateLimitError a = true <-> StatusCode resp = 429)
    /\ (APIError.IsValidationError a = true <-> StatusCode resp = 400)
    /\ (APIError.IsAuthenticationError a = true <-> StatusCode resp = 401)
    /\ (APIError.IsServerError a = true <-> 500 <= StatusCode resp < 600)
    /\ APIError.GetRetryAfter a
       = (if StatusCode resp =? 429 then ErrorResponse.RetryAfter errResp else 0).
Proof.
  intros Hv Hm Hu Hc Hl Ht Hs Hread Hparse.
  unfold SendEmailWithIdempotency. rewrite Hv.
  rewrite (doRequest_run c b "POST" "/mails/send" r jsonBody key w l h
             Hm eq_refl Hu Hc Hl).
  rewrite Ht. apply Z.eqb_neq in Hs. rewrite Hs. cbn [negb fst].
  unfold handleErrorResponse. rewrite Hread, Hparse.
  eexists _, _. split; [reflexivity|]. split; [reflexivity|].
  split; [reflexivity|].
  unfold APIError.IsRateLimitError, APIError.IsValidationError,
    APIError.IsAuthenticationError, APIError.IsServerError,
    APIError.GetRetryAfter, APIError.IsRateLimitError.
  cbn [APIError.StatusCode APIError.RetryAfter].
  repeat split; try lia.
Qed.

(** X13: an APIError that handleErrorResponse returns always carries the
    status code of the response and a RateLimitInfo that is not nil, so a
    caller may read its fields without a nil check. *)
Theorem X13_classified_error_has_rate_limit_info (resp : Response)
    (a : APIError.t) :
  handleErrorResponse std resp = APIErr a ->
  APIError.StatusCode a = StatusCode resp
  /\ APIError.RateLimitInfo a = Some (parseRateLimitHeaders (RespHeader resp))
  /\ snd (io_ReadAll (Body resp)) = None
  /\ snd (json_Unmarshal_ErrorResponse std (fst (io_ReadAll (Body resp)))) = None.
Proof.
  unfold handleErrorResponse.
  destruct (io_ReadAll (Body resp)) as [body [e|]]; [discriminate|].
  cbn [fst snd].
  destruct (json_Unmarshal_ErrorResponse std body) as [errResp [e|]];
    [discriminate|].
  intros [= <-]. repeat split.
Qed.

End ExchangeFacts.

(** ** Decimal numerals and strconv *)

Lemma decimal_value_acc (d : Decimal.uint) (acc : positive) :
  decimal_value d (Zpos acc) = Zpos (Pos.of_uint_acc d acc).
Proof.
  revert acc. induction d; intros acc; cbn [decimal_value Pos.of_uint_acc];
    [reflexivity | ..];
    match goal with
    | |- decimal_value _ ?x = Z.pos (Pos.of_uint_acc _ ?y) =>
        replace x with (Zpos y) by lia; apply IHd
    end.
Qed.

Lemma decimal_value_of_uint (d : Decimal.uint) :
  decimal_value d 0 = Z.of_N (Pos.of_uint d).
Proof.
  induction d; cbn [decimal_value Pos.of_uint]; [reflexivity | exact IHd | ..];
    cbn [Z.mul Z.add Z.of_N]; apply decimal_value_acc.
Qed.

Lemma decimal_value_to_uint (p : positive) :
  decimal_value (Pos.to_uint p) 0 = Zpos p.
Proof.
  rewrite decimal_value_of_uint, DecimalPos.Unsigned.of_to. reflexivity.
Qed.

Lemma decimal_value_le (d : Decimal.uint) (acc : Z) :
  0 <= acc -> acc <= decimal_value d acc.
Proof.
  revert acc. induction d; intros acc Hacc; cbn [decimal_value]; [lia | ..];
    match goal with
    | |- _ <= decimal_value _ ?x => specialize (IHd x); lia
    end.
Qed.

Lemma Atoi_fast_digits (d : Decimal.uint) (acc : Z) :
  strconv.Atoi_fast (NilEmpty.string_of_uint d) acc = Some (decimal_value d acc).
Proof.
  revert acc. induction d; intros acc;
    cbn [NilEmpty.string_of_uint strconv.Atoi_fast decimal_value];
    [reflexivity | ..];
    match goal with
    | |- context [(byte_val ?c - 48) mod 256] =>
        let v := eval vm_compute in ((byte_val c - 48) mod 256) in
        change ((byte_val c - 48) mod 256) with v
    end; cbn [Z.ltb Z.compare Pos.compare Pos.compare_cont]; apply IHd.
Qed.

Lemma ParseUint_loop_digits (d : Decimal.uint) (acc : Z) :
  0 <= acc ->
  decimal_value d acc <= 2 ^ 64 - 1 ->
  strconv.ParseUint_loop 10 (strconv.maxUint64 / 10 + 1) (2 ^ 64 - 1)
    (NilEmpty.string_of_uint d) acc
  = (decimal_value d acc, None).
Proof.
  change (strconv.maxUint64 / 10 + 1) with 1844674407370955162.
  change (2 ^ 64 - 1) with 18446744073709551615.
  revert acc. induction d; intros acc Hacc Hmax;
    cbn [NilEmpty.string_of_uint strconv.ParseUint_loop decimal_value] in *;
    [reflexivity | ..];
    match goal with
    | |- context [strconv.digit_of ?c] =>
        let v := eval vm_compute in (strconv.digit_of c) in
        change (strconv.digit_of c) with v
    end; cbv iota beta;
    match goal with
    | H : decimal_value d ?x <= _ |- _ =>
        pose proof (decimal_value_le d x ltac:(lia)) as Hle
    end;
    match goal with
    | |- context [10 <=? ?k] => change (10 <=? k) with false
    end; cbv iota;
    (destruct (1844674407370955162 <=? acc) eqn:Hc; [lia|]);
    change (2 ^ 64) with 18446744073709551616;
    rewrite Z.mod_small by lia;
    match goal with
    | |- context [(?a <? ?b) || (?c <? ?a)] =>
        replace ((a <? b) || (c <? a)) with false by lia
    end; apply IHd; lia.
Qed.

Lemma string_of_uint_nonempty (d : Decimal.uint) :
  d <> Decimal.Nil -> is_empty (NilEmpty.string_of_uint d) = false.
Proof. destruct d; [congruence | reflexivity ..]. Qed.

Lemma ParseUint_digits (d : Decimal.uint) (bitSize : Z) :
  d <> Decimal.Nil ->
  bitSize = 0 \/ bitSize = 64 ->
  decimal_value d 0 <= 2 ^ 64 - 1 ->
  strconv.ParseUint (NilEmpty.string_of_uint d) 10 bitSize
  = (decimal_value d 0, None).
Proof.
  intros Hd Hb Hmax. unfold strconv.ParseUint.
  rewrite string_of_uint_nonempty by exact Hd.
  destruct Hb as [-> | ->]; cbv zeta;
    [change (if 0 =? 0 then strconv.IntSize else 0) with 64
    |change (if 64 =? 0 then strconv.IntSize else 64) with 64];
    apply ParseUint_loop_digits; lia.
Qed.

(** The head of a numeral is a digit: neither sign. *)
Lemma string_of_uint_head (d : Decimal.uint) :
  d <> Decimal.Nil ->
  exists c rest,
    NilEmpty.string_of_uint d = String c rest
    /\ Ascii.eqb c "-" = false /\ Ascii.eqb c "+" = false.
Proof. destruct d; [congruence | eexists _, _; repeat split ..]. Qed.

Lemma itoa_cases (z : Z) :
  (z = 0 /\ itoa z = "0")
  \/ (exists p, z = Zpos p
                /\ itoa z = NilEmpty.string_of_uint (Pos.to_uint p))
  \/ (exists p, z = Zneg p
                /\ itoa z = String "-" (NilEmpty.string_of_uint (Pos.to_uint p))).
Proof.
  destruct z as [|p|p]; [left; split; reflexivity | right; left | right; right];
    exists p; (split; [reflexivity|]); unfold itoa;
    cbn [Z.to_int NilZero.string_of_int NilZero.string_of_uint];
    pose proof (DecimalPos.Unsigned.to_uint_nonnil p) as Hn;
    destruct (Pos.to_uint p); try congruence; reflexivity.
Qed.

Lemma ParseInt_itoa (z bitSize : Z) :
  bitSize = 0 \/ bitSize = 64 ->
  - 2 ^ 63 <= z < 2 ^ 63 ->
  strconv.ParseInt (itoa z) 10 bitSize = (z, None).
Proof.
  intros Hb Hz.
  destruct (itoa_cases z) as [[-> ->] | [(p & -> & ->) | (p & -> & ->)]].
  - destruct Hb as [-> | ->]; vm_compute; reflexivity.
  - pose proof (DecimalPos.Unsigned.to_uint_nonnil p) as Hn.
    destruct (string_of_uint_head _ Hn) as (c & rest & Hs & Hm & Hp).
    unfold strconv.ParseInt. rewrite Hs, Hm, Hp. cbn [orb negb andb].
    rewrite <- Hs, ParseUint_digits, decimal_value_to_uint; auto;
      [|rewrite decimal_value_to_uint; lia].
    assert (Hcut : (if bitSize =? 0 then strconv.IntSize else bitSize) = 64)
      by (destruct Hb as [-> | ->]; reflexivity).
    cbv zeta. rewrite Hcut. change (2 ^ (64 - 1)) with (2 ^ 63).
    destruct (2 ^ 63 <=? Z.pos p) eqn:E; [lia | reflexivity].
  - pose proof (DecimalPos.Unsigned.to_uint_nonnil p) as Hn.
    unfold strconv.ParseInt. change (Ascii.eqb "-" "-") with true.
    change (Ascii.eqb "-" "+") with false. cbn [orb negb andb].
    rewrite ParseUint_digits, decimal_value_to_uint; auto;
      [|rewrite decimal_value_to_uint; lia].
    assert (Hcut : (if bitSize =? 0 then strconv.IntSize else bitSize) = 64)
      by (destruct Hb as [-> | ->]; reflexivity).
    cbv zeta. rewrite Hcut. change (2 ^ (64 - 1)) with (2 ^ 63).
    destruct (2 ^ 63 <? Z.pos p) eqn:E; [lia | reflexivity].
Qed.

Lemma Atoi_itoa (z : Z) :
  - 2 ^ 63 <= z < 2 ^ 63 -> strconv.Atoi (itoa z) = (z, None).
Proof.
  intros Hz. unfold strconv.Atoi.
  destruct (_ && _); [|apply ParseInt_itoa; auto].
  destruct (itoa_cases z) as [[-> ->] | [(p & -> & ->) | (p & -> & ->)]].
  - reflexivity.
  - pose proof (DecimalPos.Unsigned.to_uint_nonnil p) as Hn.
    destruct (string_of_uint_head _ Hn) as (c & rest & Hs & Hm & Hp).
    rewrite Hs, Hm, Hp. cbn [orb andb].
    rewrite <- Hs, Atoi_fast_digits, decimal_value_to_uint. reflexivity.
  - pose proof (DecimalPos.Unsigned.to_uint_nonnil p) as Hn.
    change (Ascii.eqb "-" "-") with true. cbn [orb andb].
    rewrite string_of_uint_nonempty by exact Hn.
    rewrite Atoi_fast_digits, decimal_value_to_uint. reflexivity.
Qed.

Lemma itoa_nonempty (z : Z) : is_empty (itoa z) = false.
Proof.
  destruct (itoa_cases z) as [[_ ->] | [(p & _ & ->) | (p & _ & ->)]];
    [reflexivity | | reflexivity].
  apply string_of_uint_nonempty, DecimalPos.Unsigned.to_uint_nonnil.
Qed.

(** X14: the rate-limit headers round-trip.  Whatever else a header map
    holds, once the three headers are set to the decimal renderings of
    64-bit integers, in the spelling of the package or in lower case,
    parseRateLimitHeaders gives back exactly those integers. *)
Theorem X14_rate_limit_headers_round_trip (h : Header)
    (limit remaining reset : Z) :
  - 2 ^ 63 <= limit < 2 ^ 63 ->
  - 2 ^ 63 <= remaining < 2 ^ 63 ->
  - 2 ^ 63 <= reset < 2 ^ 63 ->
  parseRateLimitHeaders
    (Header_Set
       (Header_Set (Header_Set h "X-RateLimit-Limit" (itoa limit))
          "X-RateLimit-Remaining" (itoa remaining))
       "X-RateLimit-Reset" (itoa reset))
  = RateLimitInfo.mk limit remaining reset
  /\ parseRateLimitHeaders
       (Header_Set
          (Header_Set (Header_Set h "x-ratelimit-reset" (itoa reset))
             "x-ratelimit-limit" (itoa limit))
          "x-ratelimit-remaining" (itoa remaining))
     = RateLimitInfo.mk limit remaining reset.
Proof.
  intros Hl Hr Ht.
  rewrite !parseRateLimitHeaders_fields. unfold Header_Get, Header_Set.
  change (CanonicalMIMEHeaderKey "X-RateLimit-Limit") with "X-Ratelimit-Limit".
  change (CanonicalMIMEHeaderKey "X-RateLimit-Remaining")
    with "X-Ratelimit-Remaining".
  change (CanonicalMIMEHeaderKey "X-RateLimit-Reset") with "X-Ratelimit-Reset".
  change (CanonicalMIMEHeaderKey "x-ratelimit-limit") with "X-Ratelimit-Limit".
  change (CanonicalMIMEHeaderKey "x-ratelimit-remaining")
    with "X-Ratelimit-Remaining".
  change (CanonicalMIMEHeaderKey "x-ratelimit-reset") with "X-Ratelimit-Reset".
  cbv zeta. simplify_map_eq.
  rewrite !itoa_nonempty, !Atoi_itoa, !ParseInt_itoa by auto.
  split; reflexivity.
Qed.

(** ** The retry loop *)

Section RetryFacts.

Variable std : Stdlib.

(** One send: the clients stay, the wire grows by at most one request. *)
Lemma send_step (c : Client) (ctx : option bool)
    (req : option SendEmailRequest.t) (w : World) :
  clients (snd (SendEmail std c ctx req w)) = clients w
  /\ exists extra : list (loc * Request),
       wire (snd (SendEmail std c ctx req w)) = (wire w ++ extra)%list
       /\ (List.length extra <= 1)%nat.
Proof.
  unfold SendEmail.
  destruct (send_wire_shape std c ctx req "" w)
    as (Hc & [Hw | (l & b & r & j & _ & _ & _ & _ & Hw)]).
  - split; [exact Hc|]. exists []. rewrite app_nil_r. split; [exact Hw | simpl; lia].
  - split; [exact Hc|]. eexists. split; [exact Hw | simpl; lia].
Qed.

(** The answer to a send depends on the clients in the store, not on what
    is on the wire. *)
Lemma send_result_frame (c : Client) (ctx : option bool)
    (req : option SendEmailRequest.t) (w1 w2 : World) :
  clients w1 = clients w2 ->
  fst (SendEmail std c ctx req w1) = fst (SendEmail std c ctx req w2).
Proof.
  intros Hc. unfold SendEmail, SendEmailWithIdempotency.
  destruct (validateSendEmailRequest req); [reflexivity|].
  assert (Hd : fst (doRequest std c ctx "POST" "/mails/send" req "" w1)
               = fst (doRequest std c ctx "POST" "/mails/send" req "" w2)).
  { unfold doRequest.
    destruct (match req with
              | Some b => let (jsonBody, e) := json_Marshal std b in (Some jsonBody, e)
              | None => (None, None)
              end) as [bodyReader [e|]]; [reflexivity|].
    destruct (NewRequestWithContext std ctx "POST"
                (baseURL c +:+ "/mails/send") bodyReader)
      as [[r|] [e|]]; try reflexivity.
    match goal with
    | |- context [Do std (httpClient c) ?r w1] => generalize r; intros final
    end.
    unfold Do. rewrite Hc. destruct (httpClient c) as [l|]; [|reflexivity].
    destruct (clients w2 !! l) as [h|]; [|reflexivity].
    destruct (Transport h final); reflexivity. }
  destruct (doRequest std c ctx "POST" "/mails/send" req "" w1) as [o1 u1],
    (doRequest std c ctx "POST" "/mails/send" req "" w2) as [o2 u2].
  cbn [fst] in Hd. subst o2.
  destruct o1 as [[[r2|] [e|]]|p]; try reflexivity.
  destruct (negb (StatusCode r2 =? 200)); [reflexivity|].
  destruct (io_ReadAll (Body r2)) as [b [e|]]; [reflexivity|].
  destruct (json_Unmarshal_SendEmailResponse std b) as [v [e|]]; reflexivity.
Qed.

(** X15: without attempts there is nothing to report.  With maxRetries at
    or below zero the loop sends nothing, prints and sleeps nothing, and
    returns an error that wraps no cause. *)
Theorem X15_no_attempts_no_cause (ctx : option bool) (c : Client)
    (req : option SendEmailRequest.t) (maxRetries : Z) (w : World) :
  maxRetries <= 0 ->
  retry.sendEmailWithRetry std ctx c req maxRetries w
  = (Returns (None, Some (errorString "max retries exceeded: %!w(<nil>)")), w, []).
Proof.
  intros Hm. unfold retry.sendEmailWithRetry.
  replace (Z.to_nat maxRetries) with O by lia. reflexivity.
Qed.




Lemma sleeps_app (a b : list retry.event) :
  retry.sleeps (a ++ b) = (retry.sleeps a ++ retry.sleeps b)%list.
Proof. apply omap_app. Qed.

(** X18: a failure that repeats.  The transport of a client answers the
    same request in the same way, so when the first attempt fails every
    attempt does.  If the failure is a rate limit or a server error, the
    loop sleeps after every attempt, the last one included: maxRetries
    sleeps, each the retry hint when the error is a rate limit with a
    non-zero hint and the attempt's backoff otherwise.  If the failure is
    not an APIError, the loop sleeps between attempts only: maxRetries - 1
    backoffs.  Either way the result is "max retries exceeded" wrapping the
    failure. *)
Theorem X18_repeated_failure_sleeps (ctx : option bool) (c : Client)
    (req : option SendEmailRequest.t) (maxRetries : Z) (w : World)
    (err : error) :
  1 <= maxRetries ->
  fst (SendEmail std c ctx req w) = Returns (None, Some err) ->
  let r := retry.sendEmailWithRetry std ctx c req maxRetries w in
  let gave_up :=
    Returns (None, Some (wrapError ("max retries exceeded: " +:+ Error err) err)) in
  match As_APIError err with
  | Some a =>
      APIError.IsRateLimitError a = true \/ APIError.IsServerError a = true ->
      let hint := retry.wrap64 (APIError.GetRetryAfter a * time.Second) in
      fst (fst r) = gave_up
      /\ retry.sleeps (snd r)
         = map (fun k => if APIError.IsRateLimitError a && negb (hint =? 0)
                         then hint else retry.backoff k)
               (seqZ 0 maxRetries)
  | None =>
      fst (fst r) = gave_up
      /\ retry.sleeps (snd r) = map retry.backoff (seqZ 0 (maxRetries - 1))
  end.
Proof.
  intros Hm Hfirst r gave_up. subst r.
  unfold retry.sendEmailWithRetry.
  assert (Hsend : forall w0, clients w0 = clients w ->
            exists w1, SendEmail std c ctx req w0 = (Returns (None, Some err), w1)
                       /\ clients w1 = clients w).
  { intros w0 Hc. pose proof (send_result_frame c ctx req w0 w Hc) as Hf.
    rewrite Hfirst in Hf. destruct (send_step c ctx req w0) as (Hc1 & _).
    destruct (SendEmail std c ctx req w0) as [o w1]. cbn [fst snd] in *.
    subst o. exists w1. split; [reflexivity | congruence]. }
  destruct (As_APIError err) as [a|] eqn:Has.
  - intros Hretry.
    set (hint := retry.wrap64 (APIError.GetRetryAfter a * time.Second)).
    set (wait := fun k : Z => if APIError.IsRateLimitError a && negb (hint =? 0)
                              then hint else retry.backoff k).
    assert (Hgen : forall n attempt last w0 out,
              clients w0 = clients w ->
              let r := retry.loop std n attempt maxRetries ctx c req last w0 out in
              fst (fst r)
              = Returns (None,
                         Some (match n, last with
                               | O, Some e => Errorf_w "max retries exceeded: " e
                               | O, None =>
                                   errorString "max retries exceeded: %!w(<nil>)"
                               | S _, _ => Errorf_w "max retries exceeded: " err
                               end))
              /\ retry.sleeps (snd r)
                 = (retry.sleeps out ++ map wait (seqZ attempt (Z.of_nat n)))%list).
    { induction n as [|n IH]; intros attempt last w0 out Hc; cbv zeta.
      - cbn [retry.loop fst snd]. split; [now destruct last|].
        cbn [Z.of_nat]. rewrite seqZ_nil by lia. now rewrite app_nil_r.
      - cbn [retry.loop]. destruct (Hsend w0 Hc) as (w1 & -> & Hc1).
        rewrite Has.
        rewrite (seqZ_cons attempt (Z.of_nat (S n))) by lia.
        replace (Z.pred (Z.of_nat (S n))) with (Z.of_nat n) by lia.
        replace (Z.succ attempt) with (attempt + 1) by lia.
        assert (Hstep : forall (d : time.Duration) (f : string) (args : list retry.arg),
                  d = wait attempt ->
                  let r := retry.loop std n (attempt + 1) maxRetries ctx c req
                             (Some err) w1
                             (out ++ [retry.Printf f args; retry.Sleep d])%list in
                  fst (fst r)
                  = Returns (None, Some (Errorf_w "max retries exceeded: " err))
                  /\ retry.sleeps (snd r)
                     = (retry.sleeps out
                        ++ map wait (attempt :: seqZ (attempt + 1) (Z.of_nat n)))%list).
        { intros d f args ->. cbv zeta.
          destruct (IH (attempt + 1) (Some err) w1
                      (out ++ [retry.Printf f args; retry.Sleep (wait attempt)])%list
                      Hc1) as (Hr & Hs).
          split; [rewrite Hr; now destruct n|].
          rewrite Hs, sleeps_app, <- app_assoc. reflexivity. }
        unfold wait at 1 in Hstep.
        destruct (APIError.IsRateLimitError a) eqn:Hrl.
        + apply Hstep. fold hint. cbn [andb].
          now destruct (hint =? 0).
        + destruct Hretry as [Hr | Hsrv]; [discriminate|].
          unfold APIError.IsValidationError, APIError.IsAuthenticationError.
          unfold APIError.IsServerError in Hsrv.
          replace (APIError.StatusCode a =? 400) with false by lia.
          replace (APIError.StatusCode a =? 401) with false by lia.
          unfold APIError.IsServerError. rewrite Hsrv.
          apply Hstep. reflexivity. }
    destruct (Hgen (Z.to_nat maxRetries) 0 None w [] eq_refl) as (Hr & Hs).
    split.
    + rewrite Hr. destruct (Z.to_nat maxRetries) eqn:E; [lia | reflexivity].
    + rewrite Hs. cbn [retry.sleeps omap app]. now rewrite Z2Nat.id by lia.
  - assert (Hgen : forall n attempt last w0 out,
              clients w0 = clients w ->
              attempt + Z.of_nat n = maxRetries ->
              let r := retry.loop std n attempt maxRetries ctx c req last w0 out in
              fst (fst r)
              = Returns (None,
                         Some (match n, last with
                               | O, Some e => Errorf_w "max retries exceeded: " e
                               | O, None =>
                                   errorString "max retries exceeded: %!w(<nil>)"
                               | S _, _ => Errorf_w "max retries exceeded: " err
                               end))
              /\ retry.sleeps (snd r)
                 = (retry.sleeps out
                    ++ map retry.backoff (seqZ attempt (Z.of_nat n - 1)))%list).
    { induction n as [|n IH]; intros attempt last w0 out Hc Hn; cbv zeta.
      - cbn [retry.loop fst snd]. split; [now destruct last|].
        rewrite seqZ_nil by lia. now rewrite app_nil_r.
      - cbn [retry.loop]. destruct (Hsend w0 Hc) as (w1 & -> & Hc1).
        rewrite Has. cbv zeta.
        destruct (attempt <? maxRetries - 1) eqn:Hlt.
        + destruct (IH (attempt + 1) (Some err) w1
                      (out ++ [retry.Printf
                                 "Error: %v. Waiting %v before retry %d/%d...\n"
                                 [retry.argError err;
                                  retry.argDuration (retry.backoff attempt);
                                  retry.argInt (attempt + 1);
                                  retry.argInt maxRetries];
                               retry.Sleep (retry.backoff attempt)])%list
                      Hc1 ltac:(lia)) as (Hr & Hs).
          split; [rewrite Hr; now destruct n|].
          rewrite Hs, sleeps_app, <- app_assoc.
          rewrite (seqZ_cons attempt (Z.of_nat (S n) - 1)) by lia.
          replace (Z.pred (Z.of_nat (S n) - 1)) with (Z.of_nat n - 1) by lia.
          replace (Z.succ attempt) with (attempt + 1) by lia. reflexivity.
        + destruct (IH (attempt + 1) (Some err) w1 out Hc1 ltac:(lia))
            as (Hr & Hs).
          split; [rewrite Hr; now destruct n|].
          rewrite Hs. rewrite !seqZ_nil by lia. reflexivity. }
    destruct (Hgen (Z.to_nat maxRetries) 0 None w [] eq_refl ltac:(lia))
      as (Hr & Hs).
    split.
    + rewrite Hr. destruct (Z.to_nat maxRetries) eqn:E; [lia | reflexivity].
    + rewrite Hs. cbn [retry.sleeps omap app]. now rewrite Z2Nat.id by lia.
Qed.

End RetryFacts.

Lemma wrap64_small (z : Z) : - 2 ^ 63 <= z < 2 ^ 63 -> retry.wrap64 z = z.
Proof.
  intros Hz. unfold retry.wrap64.
  change (2 ^ 63) with 9223372036854775808 in *.
  change (2 ^ 64) with 18446744073709551616.
  rewrite Z.mod_small; lia.
Qed.

Lemma wrap64_range (z : Z) : - 2 ^ 63 <= retry.wrap64 z < 2 ^ 63.
Proof.
  unfold retry.wrap64.
  change (2 ^ 63) with 9223372036854775808.
  change (2 ^ 64) with 18446744073709551616.
  pose proof (Z.mod_pos_bound (z + 9223372036854775808) 18446744073709551616
                ltac:(lia)). lia.
Qed.

(** X19: the backoff doubles only while it fits.  For attempts 0 to 33 it
    is 2^attempt seconds; from attempt 34 on the multiplication overflows
    64 bits and the value is no longer 2^attempt seconds; from attempt 64
    on the shift itself yields 0 and the loop does not wait at all. *)
Theorem X19_backoff_doubles_until_it_overflows (attempt : Z) :
  (0 <= attempt <= 33 -> retry.backoff attempt = 2 ^ attempt * time.Second)
  /\ (34 <= attempt -> retry.backoff attempt <> 2 ^ attempt * time.Second)
  /\ (64 <= attempt -> retry.backoff attempt = 0).
Proof.
  unfold retry.backoff, time.Second. split; [|split].
  - intros Hk. rewrite Z.shiftl_1_l.
    assert (H1 : 0 < 2 ^ attempt) by (apply Z.pow_pos_nonneg; lia).
    assert (H2 : 2 ^ attempt <= 2 ^ 33) by (apply Z.pow_le_mono_r; lia).
    change (2 ^ 33) with 8589934592 in H2.
    rewrite (wrap64_small (2 ^ attempt)), wrap64_small;
      change (2 ^ 63) with 9223372036854775808; lia.
  - intros Hk Heq.
    pose proof (wrap64_range
                  (retry.wrap64 (Z.shiftl 1 attempt) * 1000000000)) as Hr.
    rewrite Heq in Hr.
    assert (H2 : 2 ^ 34 <= 2 ^ attempt) by (apply Z.pow_le_mono_r; lia).
    change (2 ^ 34) with 17179869184 in H2.
    change (2 ^ 63) with 9223372036854775808 in Hr. lia.
  - intros Hk. rewrite Z.shiftl_1_l.
    replace attempt with ((attempt - 64) + 64) by lia.
    rewrite Z.pow_add_r by lia.
    assert (H0 : retry.wrap64 (2 ^ (attempt - 64) * 2 ^ 64) = 0).
    { unfold retry.wrap64. rewrite Z.add_comm, Z.mod_add by (compute; lia).
      reflexivity. }
    rewrite H0. reflexivity.
Qed.

(** ** From the constructor to the wire *)

Section ConfiguredClientFacts.

Variable std : Stdlib.

(** X20: what a Config decides about the request that goes out.  A send
    through a client built by NewClientWithConfig leaves the wire as the
    constructor found it or adds exactly one request to it; the request
    added is a POST to the configured base URL (the default one when the
    Config leaves it empty) followed by /mails/send, taken verbatim; it
    authenticates with "Bearer " and the configured API key; and it goes
    through the configured http.Client when the Config names one.  A valid
    request that marshals, under a context that is not nil and a URL that
    parses, does add that request, provided the http.Client the Config
    names, if any, is a live one. *)
Theorem X20_config_reaches_the_wire (config : Config) (w : World)
    (ctx : option bool) (req : option SendEmailRequest.t) (key : string) :
  let c := fst (NewClientWithConfig std config w) in
  let w1 := snd (NewClientWithConfig std config w) in
  let w2 := snd (SendEmailWithIdempotency std c ctx req key w1) in
  let url :=
    (if is_empty (BaseURL config) then DefaultBaseURL else BaseURL config)
    +:+ "/mails/send" in
  let sent_by_config (l : loc) (sent : Request) :=
    wire w2 = (wire w ++ [(l, sent)])%list
    /\ Method sent = "POST"
    /\ URL sent = url
    /\ ReqHeader sent !! "Authorization" = Some ["Bearer " +:+ APIKey config]
    /\ httpClient c = Some l
    /\ (forall l0, HTTPClient config = Some l0 -> l = l0) in
  (wire w2 = wire w \/ exists (l : loc) (sent : Request), sent_by_config l sent)
  /\ (forall (b : bool) (r : SendEmailRequest.t) (jsonBody : string),
        ctx = Some b -> req = Some r ->
        validateSendEmailRequest (Some r) = None ->
        json_Marshal std r = (jsonBody, None) ->
        url_Parse std url = None ->
        (forall l0, HTTPClient config = Some l0 -> is_Some (clients w !! l0)) ->
        exists (l : loc) (sent : Request), sent_by_config l sent).
Proof.
  intros c w1 w2 url sent_by_config.
  assert (Hc : apiKey c = APIKey config
               /\ baseURL c = (if is_empty (BaseURL config) then DefaultBaseURL
                               else BaseURL config)
               /\ wire w1 = wire w
               /\ (forall l0, HTTPClient config = Some l0 -> httpClient c = Some l0)
               /\ ((forall l0, HTTPClient config = Some l0 ->
                               is_Some (clients w !! l0)) ->
                   exists l h, httpClient c = Some l /\ clients w1 !! l = Some h)).
  { unfold c, w1, NewClientWithConfig.
    destruct (HTTPClient config) as [l0|].
    - cbn [fst snd apiKey baseURL httpClient]. repeat split; auto.
      intros Hlive. destruct (Hlive l0 eq_refl) as [h Hh]. now exists l0, h.
    - destruct (alloc_fresh
                  (http.mkClient
                     (if Timeout config =? 0 then DefaultTimeout else Timeout config)
                     (DefaultTransport std)) w) as (_ & Hcl & Hw).
      destruct (alloc _ w) as [l1 w3].
      cbn [fst snd apiKey baseURL httpClient] in *.
      repeat split; auto; [discriminate|].
      intros _. eexists l1, _. split; [reflexivity|].
      rewrite Hcl. apply lookup_insert_eq. }
  destruct Hc as (Hkey & Hurl & Hw & Hhc & Hlive).
  assert (Hshape : forall l b j,
            httpClient c = Some l ->
            wire w2 = (wire w1 ++ [(l, built_request c b "POST" "/mails/send"
                                          (Some j) key)])%list ->
            sent_by_config l (built_request c b "POST" "/mails/send" (Some j) key)).
  { intros l b j Hl Hwire. unfold sent_by_config.
    rewrite Hwire, Hw. split; [reflexivity|].
    unfold built_request. cbn [Method URL ReqHeader].
    destruct (outbound_headers_lookup c key) as (_ & Ha & _).
    rewrite Ha, Hkey. unfold url. rewrite Hurl. repeat split; auto.
    intros l0 H0. apply Hhc in H0. congruence. }
  split.
  - destruct (send_wire_shape std c ctx req key w1)
      as (_ & [Hsame | (l' & b & r & j & _ & _ & Hl & _ & Hwire)]).
    + left. unfold w2. now rewrite Hsame.
    + right. exists l', (built_request c b "POST" "/mails/send" (Some j) key).
      now apply Hshape.
  - intros b r j -> -> Hv Hm Hu Hlv.
    destruct (Hlive Hlv) as (l & h & Hl & Hh).
    exists l, (built_request c b "POST" "/mails/send" (Some j) key).
    apply Hshape; [exact Hl|].
    unfold url in Hu. rewrite <- Hurl in Hu.
    unfold w2, SendEmailWithIdempotency. rewrite Hv.
    rewrite (doRequest_run std c b "POST" "/mails/send" r j key w1 l h
               Hm eq_refl Hu Hl Hh).
    destruct (Transport h _) as [resp | f]; cbn [snd wire]; [|reflexivity].
    destruct (negb (StatusCode resp =? 200)); [reflexivity|].
    destruct (io_ReadAll (Body resp)) as [body [e|]]; [reflexivity|].
    destruct (json_Unmarshal_SendEmailResponse std body) as [v [e|]]; reflexivity.
Qed.

End ConfiguredClientFacts.

(** A Config with a trailing slash in its base URL, and a wire that already
    holds a request to another host: the slash is kept, and the one request
    added is the new one. *)
Lemma X20_config_reaches_the_wire_witness :
  let t := Sample.answer (Sample.response 200 ∅ "{}") in
  let std := Sample.std t in
  let config := mkConfig "secret" "https://eu.example/v1/" None 0 in
  let stale := mkRequest "GET" "http://other.example/x" ∅ None (Some false) in
  let w := mkWorld ∅ [(7%positive, stale)] in
  let c := fst (NewClientWithConfig std config w) in
  let w1 := snd (NewClientWithConfig std config w) in
  exists (l : loc) (sent : Request),
    wire (snd (SendEmailWithIdempotency std c (Some false)
                 (Some Sample.request) "" w1))
    = [(7%positive, stale); (l, sent)]
    /\ Method sent = "POST"
    /\ URL sent = "https://eu.example/v1//mails/send"
    /\ ReqHeader sent !! "Authorization" = Some ["Bearer secret"].
Proof.
  intros t std config stale w c w1.
  destruct (proj2 (X20_config_reaches_the_wire std config w (Some false)
                     (Some Sample.request) "")
              false Sample.request (fst (Sample.marshal Sample.request))
              eq_refl eq_refl eq_refl eq_refl)
    as (l & sent & Hw & Hm & Hu & Ha & _).
  - vm_compute; reflexivity.
  - intros l0 H0. discriminate H0.
  - exists l, sent. split; [exact Hw|]. split; [exact Hm|].
    split; [exact Hu | exact Ha].
Defined.

(** ** The properties above at work *)

(** After WithTimeout(5 s), a final WithBaseURL changes the base URL alone. *)
Lemma X2_last_option_wins_witness :
  let std := Sample.std Sample.refuse in
  NewClientWithOptions std "key"
    ([WithTimeout (5 * time.Second)] ++ [WithBaseURL "https://eu.example/v1"])
    Sample.empty_world
  = (Returns (mkClient "key" "https://eu.example/v1" (Some 1%positive)),
     mkWorld {[ 1%positive := http.mkClient (5 * time.Second) Sample.refuse ]} []).
Proof.
  intros std.
  refine (proj1 (X2_last_option_wins std "key" [WithTimeout (5 * time.Second)]
                   Sample.empty_world
                   (mkWorld {[ 1%positive := http.mkClient (5 * time.Second)
                                               Sample.refuse ]} [])
                   (mkClient "key" DefaultBaseURL (Some 1%positive))
                   "" "https://eu.example/v1" None _)).
  vm_compute. reflexivity.
Defined.

(** The caller's client keeps its 5 s when WithTimeout(60 s) comes first. *)
Lemma X3_timeout_before_client_witness :
  let std := Sample.std Sample.refuse in
  let mine := http.mkClient (5 * time.Second) Sample.refuse in
  let w := mkWorld {[ 1%positive := mine ]} [] in
  let r := NewClientWithOptions std "key"
             [WithTimeout (60 * time.Second); WithHTTPClient (Some 1%positive)] w in
  fst r = Returns (mkClient "key" DefaultBaseURL (Some 1%positive))
  /\ clients (snd r) !! 1%positive = Some mine.
Proof.
  intros std mine w r.
  destruct (X3_timeout_before_client_is_lost std "key" (60 * time.Second) w
              1%positive mine (lookup_singleton_eq 1%positive mine))
    as (Hc & Hl & _).
  split; [exact Hc | exact Hl].
Defined.

(** The sample client is usable, so sending through it returns. *)
Lemma X5_usable_client_witness :
  let std := Sample.std Sample.refuse in
  exists (out : option SendEmailResponse.t * option error) (w' : World),
    SendEmailWithIdempotency std Sample.client (Some false)
      (Some Sample.request) "k1" (Sample.world Sample.refuse)
    = (Returns out, w')
    /\ clients w' = clients (Sample.world Sample.refuse)
    /\ client_ok Sample.client w'.
Proof.
  intros std.
  apply (X5_usable_client_never_panics std Sample.client (Some false)
           (Some Sample.request) "k1" (Sample.world Sample.refuse)).
  exists 1%positive, (http.mkClient DefaultTimeout Sample.refuse).
  split; [reflexivity | apply lookup_singleton_eq].
Defined.

(** A Config without an http.Client gives a usable client. *)
Lemma X6_constructors_witness :
  let std := Sample.std Sample.refuse in
  let r := NewClientWithConfig std (mkConfig "key" "" None 0) Sample.empty_world in
  client_ok (fst r) (snd r).
Proof.
  intros std r.
  exact (proj1 (proj2 (X6_constructors_build_usable_clients std "key"
                         (mkConfig "key" "" None 0) Sample.empty_world)
                  (or_introl eq_refl))).
Defined.

(** The sample request through a client without an http.Client. *)
Lemma X7_nil_client_witness :
  let std := Sample.std Sample.refuse in
  SendEmail std (mkClient "key" DefaultBaseURL None) (Some false)
    (Some Sample.request) Sample.empty_world
  = (Panics "nil pointer dereference", Sample.empty_world).
Proof.
  intros std.
  refine (proj2 (X7_nil_client_panics_at_dispatch std
                   (mkClient "key" DefaultBaseURL None) false Sample.request
                   (fst (Sample.marshal Sample.request)) "" Sample.empty_world
                   eq_refl eq_refl _ eq_refl)).
  vm_compute. reflexivity.
Defined.

(** A refused connection: no response, one error. *)
Lemma X8_response_xor_error_witness :
  let std := Sample.std Sample.refuse in
  let res := SendEmailWithIdempotency std Sample.client (Some false)
               (Some Sample.request) "" (Sample.world Sample.refuse) in
  let cause := libError "net" "dial tcp: connection refused" in
  let failure :=
    urlError (decode.q "Post 'https://api.autosend.com/v1/mails/send': dial tcp: connection refused")
      cause in
  let err :=
    wrapError (decode.q "request failed: Post 'https://api.autosend.com/v1/mails/send': dial tcp: connection refused")
      failure in
  fst res = Returns (None, Some err)
  /\ ((is_Some (@None SendEmailResponse.t) /\ Some err = None)
      \/ (@None SendEmailResponse.t = None /\ is_Some (Some err))).
Proof.
  intros std res cause failure err.
  assert (H : res = (Returns (None, Some err), snd res))
    by (vm_compute; reflexivity).
  split; [now rewrite H|].
  exact (X8_response_xor_error std Sample.client (Some false)
           (Some Sample.request) "" (Sample.world Sample.refuse) (snd res)
           None (Some err) H).
Defined.

(** A nil context stops the sample request before the network. *)
Lemma X10_nil_context_witness :
  let std := Sample.std Sample.refuse in
  SendEmailWithIdempotency std Sample.client None (Some Sample.request) "k1"
    (Sample.world Sample.refuse)
  = (Returns (None,
              Some (wrapError "failed to create request: net/http: nil Context"
                      (errorString "net/http: nil Context"))),
     Sample.world Sample.refuse).
Proof.
  intros std.
  exact (proj1 (proj2 (X10_failures_before_the_network std Sample.client
                         Sample.request "k1" (Sample.world Sample.refuse) eq_refl))
           (fst (Sample.marshal Sample.request)) eq_refl).
Defined.

(** A refused connection is wrapped twice, and holds no APIError. *)
Lemma X11_transport_failure_witness :
  let std := Sample.std Sample.refuse in
  exists err : error,
    fst (SendEmailWithIdempotency std Sample.client (Some false)
           (Some Sample.request) "k1" (Sample.world Sample.refuse))
    = Returns (None, Some err)
    /\ Error err
       = decode.q "request failed: Post 'https://api.autosend.com/v1/mails/send': dial tcp: connection refused"
    /\ As_APIError err = None.
Proof.
  intros std.
  destruct (X11_transport_failure_is_wrapped std Sample.client false
              Sample.request (fst (Sample.marshal Sample.request)) "k1"
              (Sample.world Sample.refuse) 1%positive
              (http.mkClient DefaultTimeout Sample.refuse)
              "https://api.autosend.com/v1/mails/send"
              (libError "net" "dial tcp: connection refused")
              eq_refl eq_refl) as (Hs & He & Ha & _);
    [vm_compute; reflexivity | reflexivity | apply lookup_singleton_eq
    | reflexivity |].
  eexists. split; [rewrite Hs; reflexivity|].
  split; [rewrite He; vm_compute; reflexivity | exact Ha].
Defined.

(** The 429 of the specification, from the transport to the predicates. *)
Lemma X12_answer_to_classified_error_witness :
  let body := decode.q "{'success':false,'message':'rate limited','retryAfter':5}" in
  let resp := Sample.response 429 Sample.rate_headers body in
  let std := Sample.std (Sample.answer resp) in
  exists (err : error) (a : APIError.t),
    fst (SendEmailWithIdempotency std Sample.client (Some false)
           (Some Sample.request) "k1" (Sample.world (Sample.answer resp)))
    = Returns (None, Some err)
    /\ As_APIError err = Some a
    /\ APIError.IsRateLimitError a = true
    /\ APIError.GetRetryAfter a = 5
    /\ APIError.RateLimitInfo a = Some (RateLimitInfo.mk 50 0 1700000000).
Proof.
  intros body resp std.
  destruct (X12_answer_to_classified_error std Sample.client false
              Sample.request (fst (Sample.marshal Sample.request)) "k1"
              (Sample.world (Sample.answer resp)) 1%positive
              (http.mkClient DefaultTimeout (Sample.answer resp)) resp body
              (ErrorResponse.mk false "rate limited" [] 5)
              eq_refl eq_refl)
    as (err & a & Hs & Ha & Hv & Hrl & _ & _ & _ & Hget);
    [vm_compute; reflexivity | reflexivity | apply lookup_singleton_eq
    | reflexivity | discriminate | reflexivity | vm_compute; reflexivity |].
  exists err, a. split; [exact Hs|]. split; [exact Ha|].
  split; [apply Hrl; reflexivity|]. split; [exact Hget|].
  rewrite Hv. vm_compute. reflexivity.
Defined.

(** The 400 with one field error carries (zero) rate-limit information. *)
Lemma X13_classified_error_witness :
  let std := Sample.std Sample.refuse in
  let resp := Sample.response 400 ∅
                (decode.q "{'message':'invalid','errors':[{'field':'to.email','message':'invalid format'}]}") in
  let a := APIError.mk 400 "invalid" [FieldError.mk "to.email" "invalid format"]
             0 (Some RateLimitInfo.zero) in
  handleErrorResponse std resp = APIErr a
  /\ APIError.StatusCode a = 400
  /\ APIError.RateLimitInfo a = Some (parseRateLimitHeaders ∅).
Proof.
  intros std resp a.
  assert (H : handleErrorResponse std resp = APIErr a)
    by (vm_compute; reflexivity).
  destruct (X13_classified_error_has_rate_limit_info std resp a H)
    as (Hc & Hr & _).
  split; [exact H|]. split; [exact Hc | exact Hr].
Defined.

(** Limit 50, nothing remaining, reset at 1700000000. *)
Lemma X14_rate_limit_round_trip_witness :
  parseRateLimitHeaders
    (Header_Set
       (Header_Set (Header_Set ∅ "X-RateLimit-Limit" (itoa 50))
          "X-RateLimit-Remaining" (itoa 0))
       "X-RateLimit-Reset" (itoa 1700000000))
  = RateLimitInfo.mk 50 0 1700000000.
Proof.
  refine (proj1 (X14_rate_limit_headers_round_trip ∅ 50 0 1700000000 _ _ _));
    split; vm_compute; congruence.
Defined.

(** Zero retries: no send, no cause. *)
Lemma X15_no_attempts_witness :
  let std := Sample.std Sample.refuse in
  retry.sendEmailWithRetry std (Some false) Sample.client
    (Some Sample.request) 0 (Sample.world Sample.refuse)
  = (Returns (None, Some (errorString "max retries exceeded: %!w(<nil>)")),
     Sample.world Sample.refuse, []).
Proof.
  intros std.
  apply (X15_no_attempts_no_cause std (Some false) Sample.client
           (Some Sample.request) 0 (Sample.world Sample.refuse)).
  lia.
Defined.


(** A 503 three times over: three sleeps of 1, 2 and 4 seconds. *)
Lemma X18_repeated_failure_witness :
  let resp := Sample.response 503 ∅ (decode.q "{'message':'unavailable'}") in
  let std := Sample.std (Sample.answer resp) in
  let r := retry.sendEmailWithRetry std (Some false) Sample.client
             (Some Sample.request) 3 (Sample.world (Sample.answer resp)) in
  let err := APIErr (APIError.mk 503 "unavailable" [] 0 (Some RateLimitInfo.zero)) in
  fst (fst r)
  = Returns (None, Some (wrapError ("max retries exceeded: " +:+ Error err) err))
  /\ retry.sleeps (snd r)
     = [1 * time.Second; 2 * time.Second; 4 * time.Second].
Proof.
  intros resp std r err.
  pose proof (X18_repeated_failure_sleeps std (Some false) Sample.client
                (Some Sample.request) 3 (Sample.world (Sample.answer resp)) err
                ltac:(lia) ltac:(vm_compute; reflexivity)) as H.
  cbn [As_APIError err] in H. unfold err in H. cbn [As_APIError] in H.
  destruct (H (or_intror eq_refl)) as [Hr Hs].
  split; [exact Hr|]. fold r in Hs. rewrite Hs. vm_compute. reflexivity.
Defined.

(** The fourth attempt waits eight seconds. *)
Lemma X19_backoff_witness : retry.backoff 3 = 8 * time.Second.
Proof.
  exact (proj1 (X19_backoff_doubles_until_it_overflows 3) ltac:(lia)).
Defined.

(** Four options around a caller's client: the constructor returns a usable
    client. *)
Lemma X4_options_witness :
  let std := Sample.std Sample.refuse in
  let w := mkWorld {[ 1%positive := http.mkClient (5 * time.Second) Sample.refuse ]} [] in
  exists (c : Client) (w' : World),
    NewClientWithOptions std "key"
      (map run_opt [OptTimeout (60 * time.Second); OptBaseURL "https://eu.example/v1";
                    OptHTTPClient (Some 1%positive); OptTimeout (10 * time.Second)]) w
    = (Returns c, w')
    /\ client_ok c w'
    /\ apiKey c = "key".
Proof.
  intros std w.
  destruct (proj1 (X4_options_and_panics std "key"
                     [OptTimeout (60 * time.Second);
                      OptBaseURL "https://eu.example/v1";
                      OptHTTPClient (Some 1%positive);
                      OptTimeout (10 * time.Second)] w))
    as (c & w' & Hr & Hok & Hk & _).
  - intros p [Hp | [Hp | [Hp | [Hp | []]]]]; try discriminate.
    injection Hp as <-.
    exists 1%positive, (http.mkClient (5 * time.Second) Sample.refuse).
    split; [reflexivity | apply lookup_singleton_eq].
  - exists c, w'. auto.
Defined.
